(** * ethwallet: the API client ([ethwallet/client.py])

    A shallow embedding of the [Client] class of the ethwallet Python
    package and of the functions it imports, followed by the properties of
    the request path: credential checks at construction, the options handed
    to the HTTP transport, the endpoint URIs and the encoding of request
    parameters. *)

From Stdlib Require Import String Ascii List ZArith NArith Bool Lia DecimalString.
From Stdlib Require Import Permutation Sorted Mergesort Orders RelationClasses.
Import ListNotations.

Local Open Scope string_scope.
Local Open Scope list_scope.

Set Warnings "-register-all".

(** ** Python values *)

(** The values that reach the client: [None], booleans, integers, text and
    dicts.  A dict keeps its items in insertion order, as Python's does, and
    holds each key once. *)
Inductive value : Type :=
| VNone
| VBool (b : bool)
| VInt (n : Z)
| VStr (s : string)
| VDict (items : list (string * value)).

Definition dict : Type := list (string * value).

(** Python's truth test, [bool(v)]. *)
Definition truthy (v : value) : bool :=
  match v with
  | VNone => false
  | VBool b => b
  | VInt n => negb (Z.eqb n 0)
  | VStr s => negb (String.eqb s "")
  | VDict items => match items with [] => false | _ :: _ => true end
  end.

(** [isinstance(v, dict)]. *)
Definition isinstance_dict (v : value) : bool :=
  match v with VDict _ => true | _ => false end.

(** [a or b]. *)
Definition py_or (a b : value) : value := if truthy a then a else b.

(** *** Dict operations *)

(** [d.get(k)], [None] of the option standing for an absent key. *)
Fixpoint dict_lookup (d : dict) (k : string) : option value :=
  match d with
  | [] => None
  | (k', v) :: rest => if String.eqb k k' then Some v else dict_lookup rest k
  end.

(** [d.get(k, default)]. *)
Definition dict_get (d : dict) (k : string) (default : value) : value :=
  match dict_lookup d k with Some v => v | None => default end.

(** [d[k] = v]: the value of a present key is replaced where it stands, a
    new key goes last. *)
Fixpoint dict_set (k : string) (v : value) (d : dict) : dict :=
  match d with
  | [] => [(k, v)]
  | (k', v') :: rest =>
      if String.eqb k k' then (k, v) :: rest else (k', v') :: dict_set k v rest
  end.

(** [d.setdefault(k, v)], for its effect on [d]. *)
Definition dict_setdefault (k : string) (v : value) (d : dict) : dict :=
  match dict_lookup d k with
  | Some _ => d
  | None => dict_set k v d
  end.

(** [d.update(items)]. *)
Definition dict_update (items : dict) (d : dict) : dict :=
  fold_left (fun acc kv => dict_set (fst kv) (snd kv) acc) items d.

(** ** Exceptions and results *)


Inductive exn : Type :=
| ValueError (msg : string)
| InsecureTransportError
| UnsupportedParameter
| AttributeError (name : string)
| OtherError (name : string).

Inductive result (A : Type) : Type :=
| Ok (a : A)
| Raise (e : exn).

Arguments Ok {A} a.
Arguments Raise {A} e.

Definition result_bind {A B : Type} (r : result A) (k : A -> result B) : result B :=
  match r with
  | Ok a => k a
  | Raise e => Raise e
  end.

(** ** [compat.quote] and [str.join]

    [client.py] imports [quote] from [compat], a module that is not part of
    the sources at hand.  The specification asks for percent-encoding by a
    fixed, documented table; the table below is that of [urllib]'s [quote]
    in Python 3.5, the version [setup.py] declares.  (From Python 3.7 on
    [quote] keeps ['~'] as well.)  A [string] here is the UTF-8 text. *)

(** Letters and digits. *)
Definition is_alnum (c : ascii) : bool :=
  let n := N_of_ascii c in
  ((48 <=? n) && (n <=? 57) || (65 <=? n) && (n <=? 90) || (97 <=? n) && (n <=? 122))%N.

(** Modelled from the spec: the bytes [compat.quote] never quotes, which
    are letters, digits and the characters [_.-]. *)
Definition always_safe (c : ascii) : bool :=
  is_alnum c || Ascii.eqb c "_" || Ascii.eqb c "." || Ascii.eqb c "-".

(** An upper-case hexadecimal digit. *)
Definition hex_digit (n : N) : ascii :=
  if (n <? 10)%N then ascii_of_N (48 + n) else ascii_of_N (55 + n).

(** Modelled from the spec: what [compat.quote] makes of one byte.  ['/']
    is safe by default, every byte that is not safe becomes [%XX]. *)
Definition quote_byte (c : ascii) : string :=
  if always_safe c || Ascii.eqb c "/" then String c EmptyString
  else
    let n := N_of_ascii c in
    String "%" (String (hex_digit (n / 16)) (String (hex_digit (n mod 16)) EmptyString)).

(** Modelled from the spec: [compat.quote(s)]. *)
Fixpoint quote (s : string) : string :=
  match s with
  | EmptyString => EmptyString
  | String c rest => quote_byte c ++ quote rest
  end.

(** [sep.join(parts)]. *)
Definition join (sep : string) (parts : list string) : string :=
  String.concat sep parts.

(** [s.endswith("/")]. *)
Fixpoint ends_with_slash (s : string) : bool :=
  match s with
  | EmptyString => false
  | String c EmptyString => Ascii.eqb c "/"
  | String _ rest => ends_with_slash rest
  end.

(** [os.path.join(a, b)] for POSIX paths. *)
Definition os_path_join (a b : string) : string :=
  if String.prefix "/" b then b
  else if String.eqb a "" || ends_with_slash a then a ++ b
  else a ++ "/" ++ b.

(** ** Text as bytes *)

(** [all(p(c) for c in s)]. *)
Fixpoint all_bytes (p : ascii -> bool) (s : string) : bool :=
  match s with
  | EmptyString => true
  | String c rest => p c && all_bytes p rest
  end.

(** [b in s]. *)
Fixpoint contains_byte (b : ascii) (s : string) : bool :=
  match s with
  | EmptyString => false
  | String c rest => Ascii.eqb b c || contains_byte b rest
  end.

(** [c.lower()] for one byte: an ASCII capital becomes the small letter. *)
Definition lower_byte (c : ascii) : ascii :=
  let n := N_of_ascii c in
  if ((65 <=? n) && (n <=? 90))%N then ascii_of_N (n + 32) else c.

(** [s.lower()] on ASCII text. *)
Fixpoint lower (s : string) : string :=
  match s with
  | EmptyString => EmptyString
  | String c rest => String (lower_byte c) (lower rest)
  end.


(** [s.startswith(p)]. *)
Fixpoint starts_with (p s : string) : bool :=
  match p, s with
  | EmptyString, _ => true
  | String a p', String b s' => Ascii.eqb a b && starts_with p' s'
  | String _ _, EmptyString => false
  end.

(** ** [compat.urljoin]

    Modelled from the spec: [compat.urljoin], which [client.py] imports and
    whose module is not part of the sources at hand.  The specification
    leaves the resolution of an endpoint against the base URI to the
    transport side; the model follows [urllib.parse] of Python 3.5, the
    version [setup.py] declares, function by function, on text taken as
    bytes. *)
Module Urllib.

(** [s.split(c, 1)] when [c] is in [s]: the text before the first [c] and
    the text after it. *)
Fixpoint cut (c : ascii) (s : string) : option (string * string) :=
  match s with
  | EmptyString => None
  | String x rest =>
      if Ascii.eqb x c then Some (EmptyString, rest)
      else match cut c rest with
           | Some (head, tail) => Some (String x head, tail)
           | None => None
           end
  end.

(** [s.split(c)]. *)
Fixpoint split (c : ascii) (s : string) : list string :=
  match s with
  | EmptyString => [EmptyString]
  | String x rest =>
      if Ascii.eqb x c then EmptyString :: split c rest
      else match split c rest with
           | first :: others => String x first :: others
           | [] => [String x EmptyString]
           end
  end.

(** [s.rsplit(c, 1)] when [c] is in [s]: the text up to the last [c], and
    the text from that [c] on, the [c] included. *)
Fixpoint cut_last (c : ascii) (s : string) : option (string * string) :=
  match s with
  | EmptyString => None
  | String x rest =>
      match cut_last c rest with
      | Some (head, tail) => Some (String x head, tail)
      | None => if Ascii.eqb x c then Some (EmptyString, s) else None
      end
  end.

Definition uses_relative : list string :=
  [""; "ftp"; "http"; "gopher"; "nntp"; "imap"; "wais"; "file"; "https"; "shttp"; "mms";
   "prospero"; "rtsp"; "rtspu"; "sftp"; "svn"; "svn+ssh"; "ws"; "wss"].

Definition uses_netloc : list string :=
  [""; "ftp"; "http"; "gopher"; "nntp"; "telnet"; "imap"; "wais"; "file"; "mms"; "https";
   "shttp"; "snews"; "prospero"; "rtsp"; "rtspu"; "rsync"; "svn"; "svn+ssh"; "sftp"; "nfs";
   "git"; "git+ssh"; "ws"; "wss"].

Definition uses_params : list string :=
  [""; "ftp"; "hdl"; "prospero"; "http"; "imap"; "https"; "shttp"; "rtsp"; "rtspu"; "sip";
   "sips"; "mms"; "sftp"; "tel"].

Definition among (s : string) (l : list string) : bool := existsb (String.eqb s) l.

Definition is_digit (c : ascii) : bool :=
  let n := N_of_ascii c in ((48 <=? n) && (n <=? 57))%N.

Definition is_letter (c : ascii) : bool :=
  let n := N_of_ascii c in
  ((65 <=? n) && (n <=? 90) || (97 <=? n) && (n <=? 122))%N.

(** [c in scheme_chars]. *)
Definition scheme_char (c : ascii) : bool :=
  is_letter c || is_digit c || Ascii.eqb c "+" || Ascii.eqb c "-" || Ascii.eqb c ".".

(** The scheme [urlsplit] finds at the head of [url], and the rest of
    [url]; [default] and [url] itself when it finds none. *)
Definition split_scheme (url default : string) : string * string :=
  match cut ":" url with
  | Some (head, rest) =>
      if String.eqb head "" then (default, url)
      else if String.eqb head "http" then (lower head, rest)
      else if all_bytes scheme_char head then
        if String.eqb rest "" || negb (all_bytes is_digit rest) then (lower head, rest)
        else (default, url)
      else (default, url)
  | None => (default, url)
  end.

(** [_splitnetloc(url, 2)] on the text after the two slashes: the text up
    to the first of ['/'], ['?'], ['#'], and the text from there on. *)
Fixpoint split_netloc (s : string) : string * string :=
  match s with
  | EmptyString => (EmptyString, EmptyString)
  | String c rest =>
      if Ascii.eqb c "/" || Ascii.eqb c "?" || Ascii.eqb c "#" then (EmptyString, s)
      else let (netloc, tail) := split_netloc rest in (String c netloc, tail)
  end.

Record SplitResult : Type := {
  s_scheme : string; s_netloc : string; s_path : string;
  s_query : string; s_fragment : string
}.

Record ParseResult : Type := {
  scheme : string; netloc : string; path : string;
  params : string; query : string; fragment : string
}.

Definition drop2 (s : string) : string :=
  match s with
  | String _ (String _ rest) => rest
  | _ => EmptyString
  end.

Definition urlsplit (url default : string) : result SplitResult :=
  let (scheme, url) := split_scheme url default in
  let (netloc, url) :=
    if starts_with "//" url then split_netloc (drop2 url) else (EmptyString, url) in
  if (contains_byte "[" netloc && negb (contains_byte "]" netloc))
     || (contains_byte "]" netloc && negb (contains_byte "[" netloc))
  then Raise (ValueError "Invalid IPv6 URL")
  else
    let (url, fragment) :=
      match cut "#" url with Some (u, f) => (u, f) | None => (url, EmptyString) end in
    let (url, query) :=
      match cut "?" url with Some (u, q) => (u, q) | None => (url, EmptyString) end in
    Ok {| s_scheme := scheme; s_netloc := netloc; s_path := url;
          s_query := query; s_fragment := fragment |}.

(** [s[:-1]]. *)
Fixpoint without_last (s : string) : string :=
  match s with
  | EmptyString => EmptyString
  | String _ EmptyString => EmptyString
  | String c rest => String c (without_last rest)
  end.

(** [_splitparams(url)]. *)
Definition splitparams (url : string) : string * string :=
  match cut_last "/" url with
  | Some (head, tail) =>
      match cut ";" tail with
      | Some (t, p) => ((head ++ t)%string, p)
      | None => (url, EmptyString)
      end
  | None =>
      match cut ";" url with
      | Some (u, p) => (u, p)
      | None => (without_last url, url)
      end
  end.

Definition urlparse (url default : string) : result ParseResult :=
  result_bind (urlsplit url default) (fun r =>
    let (url, params) :=
      if among (s_scheme r) uses_params && contains_byte ";" (s_path r)
      then splitparams (s_path r) else (s_path r, EmptyString) in
    Ok {| scheme := s_scheme r; netloc := s_netloc r; path := url; params := params;
          query := s_query r; fragment := s_fragment r |}).

Definition urlunsplit (scheme netloc url query fragment : string) : string :=
  let url :=
    if negb (String.eqb netloc "")
       || (negb (String.eqb scheme "") && among scheme uses_netloc
           && negb (starts_with "//" url))
    then ("//" ++ netloc
          ++ (if negb (String.eqb url "") && negb (starts_with "/" url)
              then "/" ++ url else url))%string
    else url in
  let url := if String.eqb scheme "" then url else (scheme ++ ":" ++ url)%string in
  let url := if String.eqb query "" then url else (url ++ "?" ++ query)%string in
  if String.eqb fragment "" then url else (url ++ "#" ++ fragment)%string.

Definition urlunparse (scheme netloc url params query fragment : string) : string :=
  let url := if String.eqb params "" then url else (url ++ ";" ++ params)%string in
  urlunsplit scheme netloc url query fragment.

(** [segments[1:-1] = filter(None, segments[1:-1])]. *)
Definition filter_middle (segments : list string) : list string :=
  match segments with
  | first :: (_ :: _) as others =>
      first :: filter (fun s => negb (String.eqb s "")) (removelast others)
        ++ [last others EmptyString]
  | _ => segments
  end.

(** The loop over the segments: ['..'] drops the last resolved segment, if
    there is one, ['.'] is skipped, any other segment is appended. *)
Definition resolve (segments : list string) : list string :=
  fold_left
    (fun resolved seg =>
       if String.eqb seg ".." then removelast resolved
       else if String.eqb seg "." then resolved
       else resolved ++ [seg])
    segments [].

(** Modelled from the spec: [urljoin(base, url)], see the head of this
    module. *)
Definition urljoin (base url : string) : result string :=
  if String.eqb base "" then Ok url
  else if String.eqb url "" then Ok base
  else
    result_bind (urlparse base "") (fun b =>
    result_bind (urlparse url (scheme b)) (fun u =>
      if negb (String.eqb (scheme u) (scheme b)) || negb (among (scheme u) uses_relative)
      then Ok url
      else if among (scheme u) uses_netloc && negb (String.eqb (netloc u) "")
      then Ok (urlunparse (scheme u) (netloc u) (path u) (params u) (query u) (fragment u))
      else
        let netloc := if among (scheme u) uses_netloc then netloc b else netloc u in
        if String.eqb (path u) "" && String.eqb (params u) ""
        then Ok (urlunparse (scheme u) netloc (path b) (params b)
                   (if String.eqb (query u) "" then query b else query u) (fragment u))
        else
          let base_parts := split "/" (path b) in
          let base_parts :=
            if String.eqb (last base_parts EmptyString) "" then base_parts
            else removelast base_parts in
          let segments :=
            if starts_with "/" (path u) then split "/" (path u)
            else filter_middle (base_parts ++ split "/" (path u)) in
          let resolved := resolve segments in
          let resolved :=
            if String.eqb (last segments EmptyString) "."
               || String.eqb (last segments EmptyString) ".."
            then resolved ++ [EmptyString] else resolved in
          let joined := join "/" resolved in
          Ok (urlunparse (scheme u) netloc
                (if String.eqb joined "" then "/" else joined)
                (params u) (query u) (fragment u)))).

End Urllib.

(** ** [util]: transport check and parameter encoding *)
(** The scheme of a URI as [urlparse(uri).scheme] gives it: lower-case,
    empty when the URI has none. *)
Definition uri_scheme (uri : string) : string :=
  fst (Urllib.split_scheme uri "").

(** Where [urlsplit] finds the netloc and the path in the text after the
    scheme: the netloc follows two slashes, and is empty without them. *)
Definition reference_netloc_path (ref : string) : string * string :=
  if starts_with "//" ref then Urllib.split_netloc (Urllib.drop2 ref)
  else (EmptyString, ref).

(** The netloc of a URI as [urlparse(uri).netloc] gives it. *)
Definition uri_netloc (uri : string) : string :=
  fst (reference_netloc_path (snd (Urllib.split_scheme uri ""))).

(** Letters, digits, ['.'] and ['-']: the bytes of a host name. *)
Definition host_byte (c : ascii) : bool :=
  is_alnum c || Ascii.eqb c "." || Ascii.eqb c "-".

(** A host name that is not empty. *)
Definition well_formed_host (host : string) : bool :=
  negb (String.eqb host "") && all_bytes host_byte host.

(** A path segment of letters, digits and the characters [_.-], other than
    the empty, ['.'] and ['..'] ones. *)
Definition plain_segment (seg : string) : bool :=
  negb (String.eqb seg "") && negb (String.eqb seg ".") && negb (String.eqb seg "..")
  && all_bytes always_safe seg.

(** A directory path of plain segments: [seg1/seg2/.../]. *)
Fixpoint directory (segs : list string) : string :=
  match segs with
  | [] => EmptyString
  | seg :: rest => seg ++ "/" ++ directory rest
  end.

Module Util.

(** Modelled from the spec: [util.check_uri_security], which [client.py]
    imports and whose module is not part of the sources at hand.  The
    specification's contract is [validate(base_uri) -> base_uri | fails with
    InsecureTransportError]: a base endpoint whose scheme is not the
    encrypted one is rejected outright, any other is returned as it is. *)
Definition check_uri_security (uri : string) : result string :=
  if String.eqb (uri_scheme uri) "https" then Ok uri
  else Raise InsecureTransportError.

(** Parameters are compared by key, keys by their bytes. *)
Module ParamOrder <: TotalLeBool.
Definition t : Type := (string * string)%type.
Definition leb (a b : t) : bool := String.leb (fst a) (fst b).
Theorem leb_total : forall a b, leb a b = true \/ leb b a = true.
Proof. intros a b. apply String.leb_total. Qed.
End ParamOrder.

Module ParamSort := Sort ParamOrder.

(** Modelled from the spec: one [key=value] pair, the value
    percent-encoded. *)
Definition encode_pair (kv : string * string) : string :=
  fst kv ++ "=" ++ quote (snd kv).

(** Modelled from the spec: the body that [util.encode_params] produces,
    a function [client.py] imports and whose module is not part of the
    sources at hand.  The specification encodes parameters as [key=value]
    pairs joined by ['&'], keys sorted lexicographically before joining,
    values percent-encoded. *)
Definition canonical_body (params : list (string * string)) : string :=
  join "&" (map encode_pair (ParamSort.sort params)).

(** Modelled from the spec: the parameters of a dict, all of them text.
    The specification leaves other parameter types to be rejected where the
    encoder is called. *)
Fixpoint text_params (d : dict) : result (list (string * string)) :=
  match d with
  | [] => Ok []
  | (k, VStr s) :: rest =>
      result_bind (text_params rest) (fun ps => Ok ((k, s) :: ps))
  | (_, _) :: _ => Raise UnsupportedParameter
  end.

(** Modelled from the spec: [util.encode_params] on a dict, see
    [canonical_body]. *)
Definition encode_params (d : dict) : result value :=
  result_bind (text_params d) (fun ps => Ok (VStr (canonical_body ps))).

End Util.

(** The order in which the encoder lists parameters. *)
Definition key_le (a b : string * string) : Prop :=
  is_true (Util.ParamOrder.leb a b).

(** Two results of reading parameters agree: the same items in some order,
    or the same exception. *)
Definition same_params (r1 r2 : result (list (string * string))) : Prop :=
  match r1, r2 with
  | Ok p1, Ok p2 => Permutation p1 p2
  | Raise e1, Raise e2 => e1 = e2
  | _, _ => False
  end.

Section CanonicalEncoder.

(** How method, path, timestamp and body are laid out in the signing input;
    the specification fixes the body only. *)
Variable layout : string -> string -> Z -> string -> string.

(** Modelled from the spec: [CanonicalEncoder.encode(method, path,
    timestamp, params) -> bytes], the signing input of [auth.HMACAuth],
    whose module is not part of the sources at hand. *)
Definition CanonicalEncoder_encode
    (method path : string) (timestamp : Z) (params : list (string * string)) : string :=
  layout method path timestamp (Util.canonical_body params).

End CanonicalEncoder.

(** ** The client *)

(** One call handed to the HTTP session:
    [getattr(session, method)(uri, **kwargs)]. *)
Record call : Type := {
  c_method : string;
  c_uri : string;
  c_kwargs : dict
}.

(** The reference [_create_api_uri] would resolve if it worked as its
    description goes: each part quoted, the quoted parts joined with ['/'],
    one ['/'] appended. *)
Definition described_reference (parts : list string) : string :=
  join "/" (map quote parts) ++ "/".

(** *** Session headers

    [requests] keeps the headers of a session in a [CaseInsensitiveDict]:
    a name is looked up and assigned by its lower-case form, and an
    assignment stores the name as given.  Header names are ASCII. *)

(** [h.get(name)]. *)
Fixpoint header_lookup (h : dict) (name : string) : option value :=
  match h with
  | [] => None
  | (k, v) :: rest =>
      if String.eqb (lower name) (lower k) then Some v else header_lookup rest name
  end.

(** [h[name] = v]. *)
Fixpoint header_set (name : string) (v : value) (h : dict) : dict :=
  match h with
  | [] => [(name, v)]
  | (k, v') :: rest =>
      if String.eqb (lower name) (lower k) then (name, v) :: rest
      else (k, v') :: header_set name v rest
  end.

(** [h.update(items)]. *)
Definition header_update (items : dict) (h : dict) : dict :=
  fold_left (fun acc kv => header_set (fst kv) (snd kv) acc) items h.

(** What [client.py] imports or receives from outside the module. *)
Class Collaborators : Type := {
  (** [auth.HMACAuth], the request signer attached to the session. *)
  auth_t : Type;
  HMACAuth : value -> value -> value -> auth_t;
  (** The headers of a fresh [requests.session()]. *)
  default_headers : dict;
  (** [util.check_uri_security] and [util.encode_params]. *)
  check_uri_security : string -> result string;
  encode_params : dict -> result value;
  (** [compat.urljoin]. *)
  urljoin : string -> string -> result string;
  (** [os.path.dirname(os.path.realpath(__file__))]. *)
  module_dir : string;
  (** Whether the session has a request method under a name other than
      the four the client's helpers call; a [requests] session has [head],
      [options] and [patch]. *)
  session_has : string -> bool;
  (** What [getattr(session, name)(uri, **kwargs)] raises under any other
      name: [AttributeError] for a name the session lacks, the [TypeError]
      of the call for an attribute that does not take it. *)
  session_raises : string -> exn;
  (** The HTTP transport behind the session and [response.json()]. *)
  response : Type;
  transport : call -> result response;
  response_json : response -> result value
}.

Section Client.

Context {env : Collaborators}.

Definition ETHCLIENT_CRT_PATH : string :=
  os_path_join module_dir "ca-ethwallet.crt".

Definition ETHCLIENT_CALLBACK_PUBLIC_KEY_PATH : string :=
  os_path_join module_dir "ethwallet-callback.pub".

(** A [requests] session as the client sets it up.  Its [headers] are a
    [CaseInsensitiveDict]: see [header_lookup] and [header_set]. *)
Record Session : Type := {
  auth : auth_t;
  headers : dict
}.

(** The attributes of a [Client] object.  [VERIFY_SSL] and
    [cached_callback_public_key] are class attributes that an instance
    reads through [self]; [API_VERSION] is a class attribute that
    [__init__] shadows on the instance. *)
Record Client : Type := {
  VERIFY_SSL : value;
  API_VERSION : value;
  cached_callback_public_key : value;
  BASE_API_URI : string;
  session : Session
}.

(** The class body. *)
Definition Client_VERIFY_SSL : value := VBool true.
Definition Client_API_VERSION : value := VStr "2016-05-17".
Definition Client_cached_callback_public_key : value := VNone.

(** Every name bound in the body of [class Client]. *)
Definition Client_namespace : list string :=
  [ "VERIFY_SSL"; "API_VERSION"; "cached_callback_public_key";
    "__init__"; "_build_session"; "_create_api_uri"; "_request";
    "_handle_response"; "_get"; "_post"; "_put"; "_delete";
    "create_address"; "send" ].

(** [hasattr(Client, name)] for the names the class itself defines. *)
Definition Client_defines (name : string) : bool :=
  existsb (String.eqb name) Client_namespace.

Definition _build_session
    (auth_class : value -> value -> value -> auth_t) (a1 a2 a3 : value) : Session :=
  {| auth := auth_class a1 a2 a3;
     headers :=
       header_update
         [ ("Accept", VStr "application/json");
           ("Content-Type", VStr "application/json");
           ("User-Agent", VStr "ethwallet/python/3.0") ]
         default_headers |}.

Definition __init__
    (api_key api_secret : value) (base_api_uri : string) (api_version : value)
  : result Client :=
  if negb (truthy api_key) then Raise (ValueError "Missing `api_key`.")
  else if negb (truthy api_secret) then Raise (ValueError "Missing `api_secret`.")
  else
    result_bind (check_uri_security base_api_uri) (fun base =>
      let version := py_or api_version Client_API_VERSION in
      Ok {| VERIFY_SSL := Client_VERIFY_SSL;
            API_VERSION := version;
            cached_callback_public_key := Client_cached_callback_public_key;
            BASE_API_URI := base;
            session := _build_session HMACAuth api_key api_secret version |}).

(** *** Methods

    A method runs on the object and the list of calls handed to the
    transport so far; an exception leaves both as they were when it was
    raised. *)
Record world : Type := {
  self : Client;
  sent : list call
}.

Definition M (A : Type) : Type := world -> result A * world.

Definition ret {A : Type} (a : A) : M A := fun w => (Ok a, w).

Definition bind {A B : Type} (m : M A) (k : A -> M B) : M B :=
  fun w =>
    match m w with
    | (Ok a, w') => k a w'
    | (Raise e, w') => (Raise e, w')
    end.

Definition lift {A : Type} (r : result A) : M A := fun w => (r, w).

Definition get_self : M Client := fun w => (Ok (self w), w).

(** Whether [getattr(self.session, name)] is a request method: a
    [requests] session has the methods [get], [post], [put] and
    [delete]. *)
Definition session_hasattr (name : string) : bool :=
  existsb (String.eqb name) ["get"; "post"; "put"; "delete"] || session_has name.

(** [getattr(self.session, method)(uri, **kwargs)]: a request method is
    called; under any other name [getattr] or the call raises, and nothing
    is sent. *)
Definition session_call (method uri : string) (kwargs : dict) : M response :=
  fun w =>
    if session_hasattr method then
      let c := {| c_method := method; c_uri := uri; c_kwargs := kwargs |} in
      (transport c, {| self := self w; sent := sent w ++ [c] |})
    else (Raise (session_raises method), w).

#[local] Notation "x <- m ;; k" := (bind m (fun x => k))
  (at level 61, m at next level, right associativity).

(** The text [_create_api_uri] resolves against the base: ['/'] is added
    to the parts, each part is quoted and the parts are joined with
    ['/']. *)
Definition relative_reference (parts : list string) : string :=
  let parts := parts ++ ["/"] in
  join "/" (map quote parts).

Definition _create_api_uri (parts : list string) : M string :=
  this <- get_self ;;
  lift (urljoin (BASE_API_URI this) (relative_reference parts)).

Definition _handle_response (r : response) : M value :=
  lift (response_json r).

Definition _request (method : string) (relative_path_parts : list string) (kwargs : dict)
  : M value :=
  uri <- _create_api_uri relative_path_parts ;;
  let data := dict_get kwargs "data" VNone in
  kwargs <- (if truthy data && isinstance_dict data
             then match data with
                  | VDict items =>
                      encoded <- lift (encode_params items) ;;
                      ret (dict_set "data" encoded kwargs)
                  | _ => ret kwargs
                  end
             else ret kwargs) ;;
  this <- get_self ;;
  let kwargs :=
    if truthy (VERIFY_SSL this)
    then dict_setdefault "verify" (VStr ETHCLIENT_CRT_PATH) kwargs
    else dict_setdefault "verify" (VBool false) kwargs in
  let kwargs := dict_update [("verify", VERIFY_SSL this)] kwargs in
  r <- session_call method uri kwargs ;;
  _handle_response r.

Definition _get := _request "get".
Definition _post := _request "post".
Definition _put := _request "put".
Definition _delete := _request "delete".

(** *** Addresses API *)

Definition create_address : M value :=
  _post ["v1"; "addresses"] [].

Definition send (amount address : value) : M value :=
  let params := [("amount", amount); ("address", address)] in
  _post ["v1"; "send"] [("data", VDict params)].

(** *** Sequences of operations *)

Inductive operation : Type :=
| Op_create_address
| Op_send (amount address : value)
| Op_request (method : string) (parts : list string) (kwargs : dict).

Definition run_operation (op : operation) : M value :=
  match op with
  | Op_create_address => create_address
  | Op_send amount address => send amount address
  | Op_request method parts kwargs => _request method parts kwargs
  end.

(** The state after a caller ran the operations one after the other,
    whatever each returned or raised. *)
Fixpoint run_operations (ops : list operation) (w : world) : world :=
  match ops with
  | [] => w
  | op :: rest => run_operations rest (snd (run_operation op w))
  end.

Definition fresh (c : Client) : world := {| self := c; sent := [] |}.

(** An operation other than a request for the single empty part. *)
Definition names_an_endpoint (op : operation) : Prop :=
  match op with
  | Op_request _ parts _ => parts <> [""]
  | _ => True
  end.

(** The ways [_request] can go: the URI does not resolve, the parameters do
    not encode, the session has no request method of the method's name, or
    one call is handed to the session. *)
Inductive request_outcome
    (method : string) (parts : list string) (kwargs : dict) (w : world)
  : result value * world -> Prop :=
| No_uri (e : exn) :
    urljoin (BASE_API_URI (self w)) (relative_reference parts) = Raise e ->
    request_outcome method parts kwargs w (Raise e, w)
| No_body (uri : string) (items : dict) (e : exn) :
    urljoin (BASE_API_URI (self w)) (relative_reference parts) = Ok uri ->
    dict_lookup kwargs "data" = Some (VDict items) ->
    items <> [] ->
    encode_params items = Raise e ->
    request_outcome method parts kwargs w (Raise e, w)
| No_attribute (uri : string) :
    urljoin (BASE_API_URI (self w)) (relative_reference parts) = Ok uri ->
    session_hasattr method = false ->
    request_outcome method parts kwargs w (Raise (session_raises method), w)
| Sent_encoded (uri : string) (items : dict) (encoded : value) (c : call) :
    urljoin (BASE_API_URI (self w)) (relative_reference parts) = Ok uri ->
    dict_lookup kwargs "data" = Some (VDict items) ->
    items <> [] ->
    encode_params items = Ok encoded ->
    session_hasattr method = true ->
    c_method c = method ->
    c_uri c = uri ->
    dict_lookup (c_kwargs c) "verify" = Some (VERIFY_SSL (self w)) ->
    dict_lookup (c_kwargs c) "data" = Some encoded ->
    request_outcome method parts kwargs w
      (result_bind (transport c) response_json,
       {| self := self w; sent := sent w ++ [c] |})
| Sent_as_given (uri : string) (c : call) :
    urljoin (BASE_API_URI (self w)) (relative_reference parts) = Ok uri ->
    (forall items, dict_lookup kwargs "data" = Some (VDict items) -> items = []) ->
    session_hasattr method = true ->
    c_method c = method ->
    c_uri c = uri ->
    dict_lookup (c_kwargs c) "verify" = Some (VERIFY_SSL (self w)) ->
    dict_lookup (c_kwargs c) "data" = dict_lookup kwargs "data" ->
    request_outcome method parts kwargs w
      (result_bind (transport c) response_json,
       {| self := self w; sent := sent w ++ [c] |}).

End Client.

(** The collaborators with the two [util] functions as the specification
    describes them. *)
Definition specified (env : Collaborators) : Collaborators :=
  {| auth_t := @auth_t env;
     HMACAuth := @HMACAuth env;
     default_headers := @default_headers env;
     check_uri_security := Util.check_uri_security;
     encode_params := Util.encode_params;
     urljoin := @urljoin env;
     module_dir := @module_dir env;
     session_has := @session_has env;
     session_raises := @session_raises env;
     response := @response env;
     transport := @transport env;
     response_json := @response_json env |}.

(** The collaborators with [compat.urljoin] as [Urllib.urljoin] models
    it. *)
Definition with_urllib (env : Collaborators) : Collaborators :=
  {| auth_t := @auth_t env;
     HMACAuth := @HMACAuth env;
     default_headers := @default_headers env;
     check_uri_security := @check_uri_security env;
     encode_params := @encode_params env;
     urljoin := Urllib.urljoin;
     module_dir := @module_dir env;
     session_has := @session_has env;
     session_raises := @session_raises env;
     response := @response env;
     transport := @transport env;
     response_json := @response_json env |}.

(** *** A fixed environment

    Stand-ins for what lies outside [client.py], to run the client on
    examples: a signer that keeps its arguments, a session with the further
    methods [head], [options] and [patch], a transport that answers every
    call with an empty JSON object. *)
Module Fixture.

Definition env : Collaborators :=
  {| auth_t := (value * value * value)%type;
     HMACAuth := fun api_key api_secret api_version => (api_key, api_secret, api_version);
     default_headers :=
       [ ("User-Agent", VStr "python-requests/2.9.1");
         ("Accept-Encoding", VStr "gzip, deflate");
         ("Accept", VStr "*/*");
         ("Connection", VStr "keep-alive") ];
     check_uri_security := Util.check_uri_security;
     encode_params := Util.encode_params;
     urljoin := Urllib.urljoin;
     module_dir := "/srv/ethwallet";
     session_has := fun name => existsb (String.eqb name) ["head"; "options"; "patch"];
     session_raises :=
       (fun name =>
          if existsb (String.eqb name) ["request"; "close"; "headers"; "auth"]
          then OtherError "TypeError" else AttributeError name);
     response := value;
     transport := fun _ => Ok (VDict []);
     response_json := fun r => Ok r |}.

(** [Client("k1", "s1", "https://wallet.example/")]. *)
Definition client : @Client env :=
  {| VERIFY_SSL := VBool true;
     API_VERSION := VStr "2016-05-17";
     cached_callback_public_key := VNone;
     BASE_API_URI := "https://wallet.example/";
     session :=
       @_build_session env (@HMACAuth env) (VStr "k1") (VStr "s1") (VStr "2016-05-17") |}.

(** A signing input: timestamp, method, path and body one after the other. *)
Definition layout (method path : string) (timestamp : Z) (body : string) : string :=
  (NilZero.string_of_int (Z.to_int timestamp) ++ method ++ path ++ body)%string.

(** The calls handed to the transport by [client.send("5", "0xabc")]. *)
Definition sent_by_send : list call :=
  sent (snd (@send env (VStr "5") (VStr "0xabc") (fresh client))).

Definition post_call : call :=
  Eval vm_compute in
    hd {| c_method := ""; c_uri := ""; c_kwargs := [] |} sent_by_send.

End Fixture.


(** *** A transport that is down

    The fixed environment with a transport that raises on every call. *)
Module Outage.

Definition env : Collaborators :=
  {| auth_t := @auth_t Fixture.env;
     HMACAuth := @HMACAuth Fixture.env;
     default_headers := @default_headers Fixture.env;
     check_uri_security := Util.check_uri_security;
     encode_params := Util.encode_params;
     urljoin := @urljoin Fixture.env;
     module_dir := @module_dir Fixture.env;
     session_has := @session_has Fixture.env;
     session_raises := @session_raises Fixture.env;
     response := value;
     transport := fun _ => Raise (OtherError "ConnectionError");
     response_json := fun r => Ok r |}.

(** [Client("k1", "s1", "https://wallet.example/")]. *)
Definition client : @Client env :=
  {| VERIFY_SSL := VBool true;
     API_VERSION := VStr "2016-05-17";
     cached_callback_public_key := VNone;
     BASE_API_URI := "https://wallet.example/";
     session :=
       @_build_session env (@HMACAuth env) (VStr "k1") (VStr "s1") (VStr "2016-05-17") |}.

(** The call that [client.create_address()] hands to the transport. *)
Definition address_call : call :=
  Eval vm_compute in
    hd {| c_method := ""; c_uri := ""; c_kwargs := [] |}
       (sent (snd (@create_address env (fresh client)))).

End Outage.

(** *** A client that opted out

    The client of the fixed environment after [client.VERIFY_SSL = False]. *)
Module OptedOut.

Definition client : @Client Fixture.env :=
  {| VERIFY_SSL := VBool false;
     API_VERSION := API_VERSION Fixture.client;
     cached_callback_public_key := cached_callback_public_key Fixture.client;
     BASE_API_URI := BASE_API_URI Fixture.client;
     session := session Fixture.client |}.

End OptedOut.

(** *** A client under a path

    The client of the fixed environment for a base URI with a path that
    does not end with ['/']. *)
Module Mounted.

(** [Client("k1", "s1", "https://wallet.example/api")]. *)
Definition client : @Client Fixture.env :=
  {| VERIFY_SSL := VERIFY_SSL Fixture.client;
     API_VERSION := API_VERSION Fixture.client;
     cached_callback_public_key := cached_callback_public_key Fixture.client;
     BASE_API_URI := "https://wallet.example/api";
     session := session Fixture.client |}.

End Mounted.

(** *** The bytes of a reference *)

(** The bytes [quote] leaves as they are. *)
Definition kept_byte (c : ascii) : bool := always_safe c || Ascii.eqb c "/".

(** Letters, digits and the characters [_.-~/%]: the bytes [quote] can put
    out, in Python 3.5 and in the versions that keep ['~']. *)
Definition reference_byte (c : ascii) : bool :=
  kept_byte c || Ascii.eqb c "~" || Ascii.eqb c "%".

(** [k in d]. *)
Definition dict_has (d : dict) (k : string) : bool :=
  existsb (String.eqb k) (map fst d).

(** *** The steps of [_request] *)

Section RequestSteps.

Context {env : Collaborators}.

(** Lines 75-77 of [client.py]: the keyword arguments once [data] is
    settled. *)
Definition settle_body (kwargs : dict) : result dict :=
  match dict_lookup kwargs "data" with
  | Some (VDict (item :: items)) =>
      result_bind (encode_params (item :: items))
        (fun encoded => Ok (dict_set "data" encoded kwargs))
  | _ => Ok kwargs
  end.

(** Lines 78-82 of [client.py]: the keyword arguments once [verify] is
    set. *)
Definition set_verify (flag : value) (kwargs : dict) : dict :=
  dict_update [("verify", flag)]
    (if truthy flag
     then dict_setdefault "verify" (VStr ETHCLIENT_CRT_PATH) kwargs
     else dict_setdefault "verify" (VBool false) kwargs).

End RequestSteps.

(** ** Facts about strings, lists and dicts *)

Lemma ascii_compare_refl (c : ascii) : Ascii.compare c c = Eq.
Proof. unfold Ascii.compare. apply N.compare_refl. Qed.

Lemma string_compare_refl (s : string) : String.compare s s = Eq.
Proof.
  induction s as [|c s IH]; simpl; [reflexivity|].
  now rewrite ascii_compare_refl.
Qed.

Lemma string_leb_refl (s : string) : String.leb s s = true.
Proof. unfold String.leb. now rewrite string_compare_refl. Qed.

Lemma string_compare_le_trans (a b c : string) :
  String.compare a b <> Gt -> String.compare b c <> Gt -> String.compare a c <> Gt.
Proof.
  revert b c.
  induction a as [|x a IH]; intros [|y b] [|z c]; simpl; try congruence.
  unfold Ascii.compare.
  destruct (N.compare_spec (N_of_ascii x) (N_of_ascii y)) as [Exy|Lxy|Gxy];
    destruct (N.compare_spec (N_of_ascii y) (N_of_ascii z)) as [Eyz|Lyz|Gyz];
    destruct (N.compare_spec (N_of_ascii x) (N_of_ascii z)) as [Exz|Lxz|Gxz];
    try congruence; try lia.
  apply IH.
Qed.

Lemma string_leb_trans (a b c : string) :
  String.leb a b = true -> String.leb b c = true -> String.leb a c = true.
Proof.
  unfold String.leb. intros Hab Hbc.
  assert (H : String.compare a c <> Gt).
  { apply (string_compare_le_trans a b c).
    - destruct (String.compare a b); congruence.
    - destruct (String.compare b c); congruence. }
  destruct (String.compare a c); congruence.
Qed.

Lemma dict_lookup_set_same (k : string) (v : value) (d : dict) :
  dict_lookup (dict_set k v d) k = Some v.
Proof.
  induction d as [|[k' v'] d IH]; simpl.
  - now rewrite String.eqb_refl.
  - destruct (String.eqb k k') eqn:E; simpl.
    + now rewrite String.eqb_refl.
    + now rewrite E.
Qed.

Lemma dict_lookup_set_other (k k' : string) (v : value) (d : dict) :
  k <> k' -> dict_lookup (dict_set k v d) k' = dict_lookup d k'.
Proof.
  intros Hne.
  induction d as [|[k0 v0] d IH]; simpl.
  - destruct (String.eqb_spec k' k); congruence.
  - destruct (String.eqb_spec k k0) as [->|Hk]; simpl.
    + destruct (String.eqb_spec k' k0); congruence.
    + destruct (String.eqb_spec k' k0); congruence.
Qed.

Lemma dict_lookup_setdefault_other (k k' : string) (v : value) (d : dict) :
  k <> k' -> dict_lookup (dict_setdefault k v d) k' = dict_lookup d k'.
Proof.
  intros Hne. unfold dict_setdefault.
  destruct (dict_lookup d k); [reflexivity|].
  now apply dict_lookup_set_other.
Qed.

Lemma dict_set_set (k : string) (v v' : value) (d : dict) :
  dict_set k v (dict_set k v' d) = dict_set k v d.
Proof.
  induction d as [|[k0 v0] d IH]; simpl.
  - now rewrite String.eqb_refl.
  - destruct (String.eqb k k0) eqn:E; simpl.
    + now rewrite String.eqb_refl.
    + now rewrite E, IH.
Qed.

Lemma ends_with_slash_app (a b : string) :
  ends_with_slash b = true -> ends_with_slash (a ++ b) = true.
Proof.
  intros Hb. induction a as [|c a IH]; simpl; [exact Hb|].
  destruct (a ++ b)%string eqn:E; [|exact IH].
  destruct a; simpl in E; [subst b; discriminate Hb | discriminate E].
Qed.

Lemma string_app_assoc (a b c : string) : ((a ++ b) ++ c = a ++ (b ++ c))%string.
Proof. induction a as [|x a IH]; simpl; [reflexivity | now rewrite IH]. Qed.

Lemma join_snoc (sep : string) (parts : list string) (last : string) :
  parts <> [] ->
  join sep (parts ++ [last]) = (join sep parts ++ sep ++ last)%string.
Proof.
  unfold join. induction parts as [|p parts IH]; [contradiction|]. intros _.
  destruct parts as [|q parts].
  - reflexivity.
  - change (String.concat sep ((p :: q :: parts) ++ [last]))
      with (p ++ sep ++ String.concat sep ((q :: parts) ++ [last]))%string.
    rewrite IH by discriminate.
    change (String.concat sep (p :: q :: parts))
      with (p ++ sep ++ String.concat sep (q :: parts))%string.
    now rewrite !string_app_assoc.
Qed.

Section ClientProperties.

Context {env : Collaborators}.

(** *** How [_request] runs *)

(** The keyword arguments as [_request] hands them to the session, from the
    arguments it holds once the body is settled. *)
Lemma verify_option_set (flag : value) (kwargs : dict) :
  dict_lookup
    (dict_update [("verify", flag)]
       (if truthy flag
        then dict_setdefault "verify" (VStr ETHCLIENT_CRT_PATH) kwargs
        else dict_setdefault "verify" (VBool false) kwargs))
    "verify" = Some flag.
Proof. unfold dict_update. simpl. apply dict_lookup_set_same. Qed.

Lemma data_option_kept (flag : value) (kwargs : dict) :
  dict_lookup
    (dict_update [("verify", flag)]
       (if truthy flag
        then dict_setdefault "verify" (VStr ETHCLIENT_CRT_PATH) kwargs
        else dict_setdefault "verify" (VBool false) kwargs))
    "data" = dict_lookup kwargs "data".
Proof.
  unfold dict_update. simpl.
  rewrite dict_lookup_set_other by discriminate.
  destruct (truthy flag); apply dict_lookup_setdefault_other; discriminate.
Qed.

Lemma handled_response (c : call) (w : world) :
  match transport c with
  | Ok r => lift (response_json r) w
  | Raise e => (Raise e, w)
  end = (result_bind (transport c) response_json, w).
Proof. destruct (transport c); reflexivity. Qed.

(** [_request], step by step. *)
Lemma _request_steps (method : string) (parts : list string) (kwargs : dict) (w : world) :
  _request method parts kwargs w =
  match urljoin (BASE_API_URI (self w)) (relative_reference parts) with
  | Raise e => (Raise e, w)
  | Ok uri =>
      match settle_body kwargs with
      | Raise e => (Raise e, w)
      | Ok kwargs' =>
          if session_hasattr method then
            let c := {| c_method := method; c_uri := uri;
                        c_kwargs := set_verify (VERIFY_SSL (self w)) kwargs' |} in
            (result_bind (transport c) response_json,
             {| self := self w; sent := sent w ++ [c] |})
          else (Raise (session_raises method), w)
      end
  end.
Proof.
  unfold _request, _create_api_uri, bind, ret, lift, get_self, session_call,
    _handle_response, dict_get, settle_body, set_verify.
  fold (@lift env value).
  destruct (urljoin (BASE_API_URI (self w)) (relative_reference parts)) as [uri|e];
    [|reflexivity].
  destruct (dict_lookup kwargs "data") as [data|].
  - destruct data as [| b | n | s |items].
    5: destruct items as [|item items].
    6: { cbn [truthy isinstance_dict andb].
         destruct (encode_params (item :: items)) as [encoded|e];
           [|reflexivity].
         cbn [result_bind]. cbv zeta.
         destruct (session_hasattr method); [apply handled_response | reflexivity]. }
    all: cbn [truthy isinstance_dict andb];
      try match goal with |- context [if ?b && false then _ else _] =>
        replace (b && false) with false by (now rewrite andb_false_r) end;
      cbv zeta;
      destruct (session_hasattr method); [apply handled_response | reflexivity].
  - cbn [truthy isinstance_dict andb]. cbv zeta.
    destruct (session_hasattr method); [apply handled_response | reflexivity].
Qed.

Lemma _request_outcome (method : string) (parts : list string) (kwargs : dict) (w : world) :
  request_outcome method parts kwargs w (_request method parts kwargs w).
Proof.
  rewrite _request_steps.
  destruct (urljoin (BASE_API_URI (self w)) (relative_reference parts)) as [uri|e] eqn:Huri;
    [|now apply No_uri].
  unfold settle_body.
  destruct (dict_lookup kwargs "data") as [data|] eqn:Hdata.
  - destruct data as [| b | n | s |items].
    5: destruct items as [|item items].
    6: { destruct (encode_params (item :: items)) as [encoded|e] eqn:Henc;
           cbn [result_bind].
         - destruct (session_hasattr method) eqn:Hattr;
             [|now apply (No_attribute _ _ _ _ uri)].
           cbv zeta.
           eapply Sent_encoded; cbn [c_method c_uri c_kwargs];
             [exact Huri | exact Hdata | discriminate | exact Henc | exact Hattr
             | reflexivity | reflexivity | apply verify_option_set | ].
           unfold set_verify. rewrite data_option_kept. apply dict_lookup_set_same.
         - eapply No_body; [exact Huri | exact Hdata | discriminate | exact Henc]. }
    all: destruct (session_hasattr method) eqn:Hattr;
      [|now apply (No_attribute _ _ _ _ uri)];
      cbv zeta;
      eapply Sent_as_given; cbn [c_method c_uri c_kwargs];
      [exact Huri
      | intros items' Hd; rewrite Hdata in Hd;
        first [discriminate Hd | now injection Hd as <-]
      | exact Hattr | reflexivity | reflexivity
      | apply verify_option_set
      | unfold set_verify; rewrite data_option_kept; now rewrite Hdata ].
  - destruct (session_hasattr method) eqn:Hattr;
      [|now apply (No_attribute _ _ _ _ uri)].
    cbv zeta.
    eapply Sent_as_given; cbn [c_method c_uri c_kwargs];
      [exact Huri
      | intros items' Hd; rewrite Hdata in Hd; discriminate Hd
      | exact Hattr | reflexivity | reflexivity
      | apply verify_option_set
      | unfold set_verify; rewrite data_option_kept; now rewrite Hdata ].
Qed.

Lemma app_one_not_self {A : Type} (l : list A) (x : A) : l <> l ++ [x].
Proof.
  intros H. apply (f_equal (@List.length A)) in H.
  rewrite length_app in H. simpl in H. lia.
Qed.

(** What one [_request] does to the object and to the calls sent. *)
Lemma _request_effect (method : string) (parts : list string) (kwargs : dict) (w : world) :
  self (snd (_request method parts kwargs w)) = self w /\
  (sent (snd (_request method parts kwargs w)) = sent w \/
   exists c,
     sent (snd (_request method parts kwargs w)) = sent w ++ [c] /\
     c_method c = method /\
     urljoin (BASE_API_URI (self w)) (relative_reference parts) = Ok (c_uri c) /\
     dict_lookup (c_kwargs c) "verify" = Some (VERIFY_SSL (self w))).
Proof.
  destruct (_request_outcome method parts kwargs w)
    as [e He | uri items e Hu Hd Hi He | uri Hu Ha
       | uri items enc c Hu Hd Hi He Ha Hm Hc Hv Hb
       | uri c Hu Hd Ha Hm Hc Hv Hb];
    cbn [snd self sent]; split; try reflexivity; try (left; reflexivity);
    right; exists c; subst uri; auto.
Qed.

Lemma run_operation_is_request (op : operation) :
  exists method parts kwargs, run_operation op = _request method parts kwargs.
Proof.
  destruct op as [|amount address|method parts kwargs]; simpl;
    unfold create_address, send, _post; eauto.
Qed.

Lemma run_operations_self (ops : list operation) (w : world) :
  self (run_operations ops w) = self w.
Proof.
  revert w. induction ops as [|op ops IH]; intros w; simpl; [reflexivity|].
  rewrite IH.
  destruct (run_operation_is_request op) as (m & parts & kw & ->).
  apply _request_effect.
Qed.

(** Every call sent by a sequence of operations was built by [_request]
    from the object as it stood. *)
Lemma run_operations_sent (P : call -> Prop) (ops : list operation) (w : world) :
  (forall c,
      dict_lookup (c_kwargs c) "verify" = Some (VERIFY_SSL (self w)) ->
      (exists parts,
          urljoin (BASE_API_URI (self w)) (relative_reference parts) = Ok (c_uri c)) ->
      P c) ->
  Forall P (sent w) ->
  Forall P (sent (run_operations ops w)).
Proof.
  revert w. induction ops as [|op ops IH]; intros w HP Hw; simpl; [exact Hw|].
  destruct (run_operation_is_request op) as (m & parts & kw & ->).
  destruct (_request_effect m parts kw w) as [Hself Hsent].
  apply IH.
  - rewrite Hself. exact HP.
  - destruct Hsent as [-> | (c & -> & _ & Huri & Hv)]; [exact Hw|].
    apply Forall_app. split; [exact Hw|].
    constructor; [|constructor]. apply HP; eauto.
Qed.

Lemma __init___attributes
    (api_key api_secret : value) (base_api_uri : string) (api_version : value) (c : Client) :
  __init__ api_key api_secret base_api_uri api_version = Ok c ->
  truthy api_key = true /\ truthy api_secret = true /\
  check_uri_security base_api_uri = Ok (BASE_API_URI c) /\
  VERIFY_SSL c = VBool true /\
  cached_callback_public_key c = VNone.
Proof.
  unfold __init__.
  destruct (truthy api_key); [|discriminate].
  destruct (truthy api_secret); [|discriminate].
  cbn [negb]. destruct (check_uri_security base_api_uri) as [base|e]; [|discriminate].
  cbn [result_bind]. intros [= <-]. repeat split.
Qed.

(** ** Properties of the request path *)

(** C1, as the code has it: a request sent while [VERIFY_SSL] is [True]
    carries [verify=True], set by [kwargs.update(verify=self.VERIFY_SSL)]
    over whatever [setdefault] stored before; the option handed to the
    transport is the flag, never the pinned certificate path
    [ETHCLIENT_CRT_PATH]. *)
Theorem request_verify_option_is_the_flag
    (method : string) (parts : list string) (kwargs : dict) (w : world) (c : call) :
  VERIFY_SSL (self w) = VBool true ->
  sent (snd (_request method parts kwargs w)) = sent w ++ [c] ->
  dict_lookup (c_kwargs c) "verify" = Some (VBool true) /\
  dict_lookup (c_kwargs c) "verify" <> Some (VStr ETHCLIENT_CRT_PATH).
Proof.
  intros Hflag Hsent.
  destruct (_request_effect method parts kwargs w) as [_ [Hnone | (c' & Hone & _ & _ & Hv)]].
  - rewrite Hnone in Hsent. now apply app_one_not_self in Hsent.
  - rewrite Hone in Hsent. apply app_inv_head in Hsent. injection Hsent as ->.
    rewrite Hv, Hflag. split; [reflexivity | discriminate].
Qed.

(** C4: construction fails with [ValueError] when [api_key] or [api_secret]
    is empty or missing ([None], the empty string, any false value), and no
    client is produced; with both credentials non-empty the two checks are
    passed, and construction ends as the transport check of the base URI
    ends: it raises only what that check raises and returns a client when
    the check returns. *)
Theorem construction_requires_credentials
    (api_key api_secret : value) (base_api_uri : string) (api_version : value) :
  (truthy api_key = false ->
   __init__ api_key api_secret base_api_uri api_version
   = Raise (ValueError "Missing `api_key`.")) /\
  (truthy api_key = true -> truthy api_secret = false ->
   __init__ api_key api_secret base_api_uri api_version
   = Raise (ValueError "Missing `api_secret`.")) /\
  __init__ VNone api_secret base_api_uri api_version
  = Raise (ValueError "Missing `api_key`.") /\
  __init__ (VStr "") api_secret base_api_uri api_version
  = Raise (ValueError "Missing `api_key`.") /\
  (forall key : string, key <> "" ->
     __init__ (VStr key) VNone base_api_uri api_version
     = Raise (ValueError "Missing `api_secret`.") /\
     __init__ (VStr key) (VStr "") base_api_uri api_version
     = Raise (ValueError "Missing `api_secret`.")) /\
  (truthy api_key = true -> truthy api_secret = true ->
   (forall e,
       __init__ api_key api_secret base_api_uri api_version = Raise e ->
       check_uri_security base_api_uri = Raise e) /\
   (forall base,
       check_uri_security base_api_uri = Ok base ->
       exists c,
         __init__ api_key api_secret base_api_uri api_version = Ok c /\
         BASE_API_URI c = base)).
Proof.
  unfold __init__.
  split; [intros ->; reflexivity|].
  split; [intros -> ->; reflexivity|].
  split; [reflexivity|].
  split; [reflexivity|].
  split.
  - intros key Hkey. cbn [truthy].
    destruct (String.eqb_spec key ""); [contradiction|]. split; reflexivity.
  - intros -> ->. cbn [negb]. split.
    + intros e He.
      destruct (check_uri_security base_api_uri); [discriminate|].
      cbn [result_bind] in He. congruence.
    + intros base ->. cbn [result_bind]. eexists. split; reflexivity.
Qed.

(** C7: a client as [__init__] builds it has [VERIFY_SSL] true; no
    operation assigns the flag, so it is still true after any sequence of
    operations, and every call they hand to the transport carries
    [verify=True]. *)
Theorem default_client_always_verifies
    (api_key api_secret : value) (base_api_uri : string) (api_version : value) (c : Client) :
  __init__ api_key api_secret base_api_uri api_version = Ok c ->
  VERIFY_SSL c = VBool true /\
  forall ops : list operation,
    VERIFY_SSL (self (run_operations ops (fresh c))) = VBool true /\
    Forall (fun sent_call => dict_lookup (c_kwargs sent_call) "verify" = Some (VBool true))
      (sent (run_operations ops (fresh c))).
Proof.
  intros Hinit.
  destruct (__init___attributes _ _ _ _ _ Hinit) as (_ & _ & _ & Hflag & _).
  split; [exact Hflag|]. intros ops. split.
  - rewrite run_operations_self. exact Hflag.
  - apply run_operations_sent.
    + cbn [fresh self]. intros sent_call Hv _. now rewrite Hv, Hflag.
    + constructor.
Qed.

(** C10: when the endpoint URI resolves and the session has the method,
    [_request] sends one call; its [data] is the encoding of the [data]
    argument when that is a non-empty dict (and the encoder returns), and
    in every other case -- no [data] argument, an empty dict, a value that
    is not a dict -- it is the argument as given, absent when none was
    given. *)
Theorem request_encodes_only_nonempty_dict
    (method : string) (parts : list string) (kwargs : dict) (w : world) (uri : string) :
  urljoin (BASE_API_URI (self w)) (relative_reference parts) = Ok uri ->
  session_hasattr method = true ->
  (forall items encoded,
      dict_lookup kwargs "data" = Some (VDict items) -> items <> [] ->
      encode_params items = Ok encoded ->
      exists c,
        sent (snd (_request method parts kwargs w)) = sent w ++ [c] /\
        dict_lookup (c_kwargs c) "data" = Some encoded) /\
  ((dict_lookup kwargs "data" = None \/
    dict_lookup kwargs "data" = Some (VDict []) \/
    exists v, dict_lookup kwargs "data" = Some v /\ isinstance_dict v = false) ->
   exists c,
     sent (snd (_request method parts kwargs w)) = sent w ++ [c] /\
     dict_lookup (c_kwargs c) "data" = dict_lookup kwargs "data").
Proof.
  intros Huri Hattr. split.
  - intros items encoded Hdata Hne Henc.
    destruct (_request_outcome method parts kwargs w)
      as [e He | uri' items' e Hu Hd Hi He | uri' Hu Ha
         | uri' items' enc c Hu Hd Hi He Ha Hm Hc Hv Hb
         | uri' c Hu Hd Ha Hm Hc Hv Hb]; cbn [snd sent].
    + congruence.
    + congruence.
    + congruence.
    + exists c. split; [reflexivity|]. congruence.
    + apply Hd in Hdata. contradiction.
  - intros Hplain.
    destruct (_request_outcome method parts kwargs w)
      as [e He | uri' items' e Hu Hd Hi He | uri' Hu Ha
         | uri' items' enc c Hu Hd Hi He Ha Hm Hc Hv Hb
         | uri' c Hu Hd Ha Hm Hc Hv Hb]; cbn [snd sent].
    + congruence.
    + destruct Hplain as [H | [H | (v & H & Hnot)]]; rewrite H in Hd.
      * discriminate.
      * injection Hd as Hd. now subst items'.
      * injection Hd as Hd. subst v. discriminate Hnot.
    + congruence.
    + destruct Hplain as [H | [H | (v & H & Hnot)]]; rewrite H in Hd.
      * discriminate.
      * injection Hd as Hd. now subst items'.
      * injection Hd as Hd. subst v. discriminate Hnot.
    + exists c. split; [reflexivity | exact Hb].
Qed.

(** [send(amount, address)], once the endpoint resolves and the
    parameters encode: one [post] call with the encoded parameters as
    [data] and [VERIFY_SSL] as [verify]. *)
Lemma send_steps
    (amount address : value) (w : world) (uri : string) (encoded : value) :
  urljoin (BASE_API_URI (self w)) (relative_reference ["v1"; "send"]) = Ok uri ->
  encode_params [("amount", amount); ("address", address)] = Ok encoded ->
  let c := {| c_method := "post"; c_uri := uri;
              c_kwargs := [("data", encoded); ("verify", VERIFY_SSL (self w))] |} in
  send amount address w =
    (result_bind (transport c) response_json,
     {| self := self w; sent := sent w ++ [c] |}).
Proof.
  intros Huri Henc c.
  unfold send, _post. rewrite _request_steps, Huri.
  unfold settle_body.
  cbn [dict_lookup String.eqb Ascii.eqb Bool.eqb]. rewrite Henc.
  cbn [result_bind session_hasattr existsb String.eqb Ascii.eqb Bool.eqb orb].
  cbv zeta. unfold set_verify.
  replace (dict_update [("verify", VERIFY_SSL (self w))]
             (if truthy (VERIFY_SSL (self w))
              then dict_setdefault "verify" (VStr ETHCLIENT_CRT_PATH)
                     (dict_set "data" encoded
                        [("data", VDict [("amount", amount); ("address", address)])])
              else dict_setdefault "verify" (VBool false)
                     (dict_set "data" encoded
                        [("data", VDict [("amount", amount); ("address", address)])])))
    with [("data", encoded); ("verify", VERIFY_SSL (self w))]
    by (destruct (truthy (VERIFY_SSL (self w))); reflexivity).
  reflexivity.
Qed.

(** C3, as the code has it: the class defines no callback-verification
    operation under any of the names [verify], [verifyCallback] or
    [verify_callback]; it only holds the attribute
    [cached_callback_public_key], which is [None] on a new client and which
    no operation assigns. *)
Theorem client_has_no_callback_verification :
  Client_defines "verify" = false /\
  Client_defines "verifyCallback" = false /\
  Client_defines "verify_callback" = false /\
  Client_defines "cached_callback_public_key" = true /\
  Client_cached_callback_public_key = VNone /\
  forall (api_key api_secret : value) (base_api_uri : string) (api_version : value)
         (c : Client),
    __init__ api_key api_secret base_api_uri api_version = Ok c ->
    forall ops : list operation,
      cached_callback_public_key (self (run_operations ops (fresh c))) = VNone.
Proof.
  repeat split.
  intros api_key api_secret base_api_uri api_version c Hinit ops.
  rewrite run_operations_self. cbn [fresh self].
  now destruct (__init___attributes _ _ _ _ _ Hinit) as (_ & _ & _ & _ & ->).
Qed.

(** [_request] does the same on two [data] dicts that encode alike. *)
Lemma _request_same_encoding
    (method : string) (parts : list string) (kwargs : dict) (w : world) (d1 d2 : dict) :
  d1 <> [] -> d2 <> [] -> encode_params d1 = encode_params d2 ->
  _request method parts (dict_set "data" (VDict d1) kwargs) w
  = _request method parts (dict_set "data" (VDict d2) kwargs) w.
Proof.
  intros H1 H2 Henc.
  unfold _request, bind, dict_get.
  destruct (_create_api_uri parts w) as [[uri|e] w']; [|reflexivity].
  rewrite !dict_lookup_set_same.
  destruct d1 as [|i1 d1]; [contradiction|]. destruct d2 as [|i2 d2]; [contradiction|].
  cbn [truthy isinstance_dict andb]. rewrite Henc. unfold lift.
  destruct (encode_params (i2 :: d2)) as [encoded|e]; [|reflexivity].
  unfold ret. now rewrite !dict_set_set.
Qed.

End ClientProperties.

(** ** Sorting parameters *)

Lemma key_le_trans : Transitive key_le.
Proof.
  intros a b c. unfold key_le, is_true, Util.ParamOrder.leb. apply string_leb_trans.
Qed.

Lemma sort_strongly_sorted (params : list (string * string)) :
  StronglySorted key_le (Util.ParamSort.sort params).
Proof. apply Util.ParamSort.StronglySorted_sort. exact key_le_trans. Qed.

Lemma same_key_same_item (l : list (string * string)) (a b : string * string) :
  NoDup (map fst l) -> In a l -> In b l -> fst a = fst b -> a = b.
Proof.
  induction l as [|x l IH]; intros Hnd Ha Hb Hk; [contradiction|].
  simpl in Hnd. inversion Hnd as [|? ? Hnotin Hnd']; subst.
  destruct Ha as [->|Ha], Hb as [->|Hb].
  - reflexivity.
  - exfalso. apply Hnotin. rewrite Hk. now apply in_map.
  - exfalso. apply Hnotin. rewrite <- Hk. now apply in_map.
  - now apply IH.
Qed.

(** Two sorted lists with the same items, no key twice, are one list. *)
Lemma sorted_items_unique (l1 l2 : list (string * string)) :
  StronglySorted key_le l1 -> StronglySorted key_le l2 ->
  Permutation l1 l2 -> NoDup (map fst l1) -> l1 = l2.
Proof.
  revert l2. induction l1 as [|a l1 IH]; intros l2 S1 S2 HP Hnd.
  - now apply Permutation_nil in HP.
  - destruct l2 as [|b l2].
    { apply Permutation_sym, Permutation_nil in HP. discriminate. }
    inversion S1 as [|? ? S1' Ha]; subst.
    inversion S2 as [|? ? S2' Hb]; subst.
    assert (Hab : a = b).
    { assert (Hin_a : In a (b :: l2)) by (apply (Permutation_in _ HP); now left).
      assert (Hin_b : In b (a :: l1))
        by (apply (Permutation_in _ (Permutation_sym HP)); now left).
      apply (same_key_same_item (a :: l1)); [exact Hnd | now left | exact Hin_b |].
      apply String.leb_antisym.
      - destruct Hin_b as [<-|Hin_b]; [apply string_leb_refl|].
        rewrite Forall_forall in Ha. exact (Ha _ Hin_b).
      - destruct Hin_a as [<-|Hin_a]; [apply string_leb_refl|].
        rewrite Forall_forall in Hb. exact (Hb _ Hin_a). }
    subst b. f_equal.
    apply IH; try assumption.
    + now apply Permutation_cons_inv in HP.
    + simpl in Hnd. now inversion Hnd.
Qed.

Lemma sort_ignores_order (p1 p2 : list (string * string)) :
  NoDup (map fst p1) -> Permutation p1 p2 ->
  Util.ParamSort.sort p1 = Util.ParamSort.sort p2.
Proof.
  intros Hnd HP.
  apply sorted_items_unique; try apply sort_strongly_sorted.
  - rewrite <- (Util.ParamSort.Permuted_sort p1), <- (Util.ParamSort.Permuted_sort p2).
    exact HP.
  - apply (Permutation_NoDup (l := map fst p1)); [|exact Hnd].
    apply Permutation_map, Util.ParamSort.Permuted_sort.
Qed.

Lemma text_params_keys (d : dict) (ps : list (string * string)) :
  Util.text_params d = Ok ps -> map fst ps = map fst d.
Proof.
  revert ps. induction d as [|[k v] d IH]; intros ps; simpl.
  - now intros [= <-].
  - destruct v; try discriminate.
    destruct (Util.text_params d) as [ps'|e]; [|discriminate].
    cbn [result_bind]. intros [= <-]. simpl. now rewrite (IH ps').
Qed.

Lemma text_params_raises (d : dict) (e : exn) :
  Util.text_params d = Raise e -> e = UnsupportedParameter.
Proof.
  induction d as [|[k v] d IH]; simpl; [discriminate|].
  destruct v; try (now intros [= <-]).
  destruct (Util.text_params d) as [ps'|e']; [discriminate|].
  cbn [result_bind]. intros [= <-]. now apply IH.
Qed.

Lemma same_params_refl (r : result (list (string * string))) : same_params r r.
Proof. destruct r; simpl; [apply Permutation_refl | reflexivity]. Qed.

(** The text parameters of two dicts with the same items are the same up
    to their order, and one dict is rejected when the other is. *)
Lemma text_params_permutation (d1 d2 : dict) :
  Permutation d1 d2 -> same_params (Util.text_params d1) (Util.text_params d2).
Proof.
  induction 1 as [| [k v] d1 d2 HP IH | [k1 v1] [k2 v2] d | d1 d2 d3 HP1 IH1 HP2 IH2].
  - simpl. apply Permutation_refl.
  - simpl. destruct v; try reflexivity.
    destruct (Util.text_params d1) as [p1|e1], (Util.text_params d2) as [p2|e2];
      simpl in *; try contradiction; [now constructor | exact IH].
  - simpl.
    destruct v1, v2; try reflexivity;
      destruct (Util.text_params d) as [p|e] eqn:E; simpl; try reflexivity;
      try (symmetry; now apply (text_params_raises d));
      try (now apply (text_params_raises d)).
    apply perm_swap.
  - destruct (Util.text_params d1) as [p1|e1], (Util.text_params d2) as [p2|e2],
      (Util.text_params d3) as [p3|e3]; simpl in *; try contradiction.
    + eapply Permutation_trans; eassumption.
    + congruence.
Qed.

Lemma encode_params_ignores_order (d1 d2 : dict) :
  NoDup (map fst d1) -> Permutation d1 d2 ->
  Util.encode_params d1 = Util.encode_params d2.
Proof.
  intros Hnd HP. unfold Util.encode_params.
  pose proof (text_params_permutation d1 d2 HP) as Hsame.
  destruct (Util.text_params d1) as [p1|e1] eqn:E1,
           (Util.text_params d2) as [p2|e2] eqn:E2;
    simpl in *; try contradiction; [|congruence].
  unfold Util.canonical_body. rewrite (sort_ignores_order p1 p2); [reflexivity| |exact Hsame].
  rewrite (text_params_keys d1 p1 E1). exact Hnd.
Qed.

(** ** Properties of the [util] functions as specified *)

(** C5: the canonical encoding of a request does not depend on the order in
    which the parameters were inserted: for the same method, path and
    timestamp, two parameter lists with the same items (each key once)
    encode to the same bytes, and [_request] hands the same call to the
    transport for two [data] dicts that differ in insertion order only. *)
Theorem canonical_encoding_ignores_insertion_order :
  (forall (layout : string -> string -> Z -> string -> string)
          (method path : string) (timestamp : Z) (p1 p2 : list (string * string)),
      NoDup (map fst p1) -> Permutation p1 p2 ->
      CanonicalEncoder_encode layout method path timestamp p1
      = CanonicalEncoder_encode layout method path timestamp p2) /\
  (forall (env : Collaborators) (method : string) (parts : list string) (kwargs : dict)
          (w : @world (specified env)) (d1 d2 : dict),
      NoDup (map fst d1) -> Permutation d1 d2 ->
      @_request (specified env) method parts (dict_set "data" (VDict d1) kwargs) w
      = @_request (specified env) method parts (dict_set "data" (VDict d2) kwargs) w).
Proof.
  split.
  - intros layout method path timestamp p1 p2 Hnd HP.
    unfold CanonicalEncoder_encode, Util.canonical_body.
    now rewrite (sort_ignores_order p1 p2).
  - intros env method parts kwargs w d1 d2 Hnd HP.
    destruct d1 as [|i1 d1].
    + apply Permutation_nil in HP. now subst d2.
    + destruct d2 as [|i2 d2].
      { apply Permutation_sym, Permutation_nil in HP. discriminate. }
      apply _request_same_encoding; try discriminate.
      now apply encode_params_ignores_order.
Qed.

(** C6: the encoder lists the parameters sorted by key, each as
    [key=value], joined with ['&']; the parameters
    [{"amount": "5", "address": "0xabc"}] encode to
    [address=0xabc&amount=5], which is also the [data] of the call that
    [send("5", "0xabc")] hands to the transport. *)
Theorem canonical_body_sorts_keys :
  (forall params : list (string * string),
      exists sorted,
        Permutation params sorted /\
        StronglySorted key_le sorted /\
        Util.canonical_body params = join "&" (map Util.encode_pair sorted)) /\
  Util.canonical_body [("amount", "5"); ("address", "0xabc")] = "address=0xabc&amount=5" /\
  Util.encode_params [("amount", VStr "5"); ("address", VStr "0xabc")]
  = Ok (VStr "address=0xabc&amount=5") /\
  map (fun c => dict_lookup (c_kwargs c) "data") Fixture.sent_by_send
  = [Some (VStr "address=0xabc&amount=5")].
Proof.
  split; [|repeat split].
  intros params. exists (Util.ParamSort.sort params). split; [|split].
  - apply Util.ParamSort.Permuted_sort.
  - apply sort_strongly_sorted.
  - reflexivity.
Qed.

(** ** The claims that do not hold as worded *)

(** C3 as worded fails: the class defines no operation named [verify],
    [verifyCallback] or [verify_callback]. *)
Lemma client_defines_no_verify :
  existsb Client_defines ["verify"; "verifyCallback"; "verify_callback"] = false.
Proof. reflexivity. Qed.

(** ** The properties at work on the fixed environment *)

Example fixture_client_is_constructed :
  @__init__ Fixture.env (VStr "k1") (VStr "s1") "https://wallet.example/" VNone
  = Ok Fixture.client.
Proof. reflexivity. Qed.

Example fixture_operations_send_two_calls :
  map c_method
    (sent (run_operations
             [Op_create_address; Op_send (VStr "5") (VStr "0xabc")]
             (fresh Fixture.client)))
  = ["post"; "post"].
Proof. reflexivity. Qed.

Example send_hands_over_verify_true :
  map (fun c => dict_lookup (c_kwargs c) "verify") Fixture.sent_by_send
  = [Some (VBool true)].
Proof. reflexivity. Qed.

Example unknown_method_sends_nothing :
  @_request Fixture.env "POST" ["v1"; "send"] [] (fresh Fixture.client)
  = (Raise (AttributeError "POST"), fresh Fixture.client) /\
  @_request Fixture.env "headers" ["v1"; "send"] [] (fresh Fixture.client)
  = (Raise (OtherError "TypeError"), fresh Fixture.client).
Proof. split; reflexivity. Qed.

Example fixture_session_headers :
  headers (session Fixture.client)
  = [ ("User-Agent", VStr "ethwallet/python/3.0");
      ("Accept-Encoding", VStr "gzip, deflate");
      ("Accept", VStr "application/json");
      ("Connection", VStr "keep-alive");
      ("Content-Type", VStr "application/json") ].
Proof. reflexivity. Qed.

Example quote_tilde : quote "~" = "%7E".
Proof. reflexivity. Qed.

Example quote_examples :
  quote "/" = "/" /\ quote "0xabc" = "0xabc" /\ quote "a b?c#d" = "a%20b%3Fc%23d".
Proof. repeat split. Qed.

Lemma request_verify_option_is_the_flag_witness :
  dict_lookup (c_kwargs Fixture.post_call) "verify" = Some (VBool true) /\
  dict_lookup (c_kwargs Fixture.post_call) "verify"
  <> Some (VStr (@ETHCLIENT_CRT_PATH Fixture.env)).
Proof.
  apply (@request_verify_option_is_the_flag Fixture.env "post" ["v1"; "send"]
           [("data", VDict [("amount", VStr "5"); ("address", VStr "0xabc")])]
           (fresh Fixture.client) Fixture.post_call);
    reflexivity.
Defined.

Lemma construction_requires_credentials_witness :
  @__init__ Fixture.env VNone (VStr "s1") "https://wallet.example/" VNone
  = Raise (ValueError "Missing `api_key`.") /\
  @__init__ Fixture.env (VStr "k1") (VStr "") "https://wallet.example/" VNone
  = Raise (ValueError "Missing `api_secret`.") /\
  exists c,
    @__init__ Fixture.env (VStr "k1") (VStr "s1") "https://wallet.example/" VNone = Ok c /\
    BASE_API_URI c = "https://wallet.example/".
Proof.
  split; [|split].
  - exact (proj1 (@construction_requires_credentials Fixture.env VNone (VStr "s1")
                    "https://wallet.example/" VNone) eq_refl).
  - exact (proj1 (proj2 (@construction_requires_credentials Fixture.env (VStr "k1")
                           (VStr "") "https://wallet.example/" VNone)) eq_refl eq_refl).
  - destruct (@construction_requires_credentials Fixture.env (VStr "k1") (VStr "s1")
                "https://wallet.example/" VNone) as (_ & _ & _ & _ & _ & Hpass).
    apply (proj2 (Hpass eq_refl eq_refl)). reflexivity.
Defined.

Lemma default_client_always_verifies_witness :
  VERIFY_SSL Fixture.client = VBool true /\
  Forall (fun sent_call => dict_lookup (c_kwargs sent_call) "verify" = Some (VBool true))
    (sent (run_operations
             [Op_create_address; Op_send (VStr "5") (VStr "0xabc")]
             (fresh Fixture.client))).
Proof.
  destruct (@default_client_always_verifies Fixture.env (VStr "k1") (VStr "s1")
              "https://wallet.example/" VNone Fixture.client eq_refl) as [Hflag Hops].
  split; [exact Hflag|]. apply Hops.
Defined.

Lemma request_encodes_only_nonempty_dict_witness :
  (exists c,
      sent (snd (@_request Fixture.env "post" ["v1"; "send"]
                   [("data", VDict [("amount", VStr "5")])] (fresh Fixture.client)))
      = sent (fresh Fixture.client) ++ [c] /\
      dict_lookup (c_kwargs c) "data" = Some (VStr "amount=5")) /\
  (exists c,
      sent (snd (@_request Fixture.env "post" ["v1"; "send"]
                   [("data", VStr "amount=5")] (fresh Fixture.client)))
      = sent (fresh Fixture.client) ++ [c] /\
      dict_lookup (c_kwargs c) "data" = Some (VStr "amount=5")) /\
  (exists c,
      sent (snd (@_request Fixture.env "post" ["v1"; "addresses"] [] (fresh Fixture.client)))
      = sent (fresh Fixture.client) ++ [c] /\
      dict_lookup (c_kwargs c) "data" = None).
Proof.
  split; [|split].
  - apply (proj1 (@request_encodes_only_nonempty_dict Fixture.env "post" ["v1"; "send"]
                    [("data", VDict [("amount", VStr "5")])] (fresh Fixture.client)
                    (c_uri Fixture.post_call) eq_refl eq_refl)
             [("amount", VStr "5")] (VStr "amount=5") eq_refl);
      [discriminate | reflexivity].
  - apply (proj2 (@request_encodes_only_nonempty_dict Fixture.env "post" ["v1"; "send"]
                    [("data", VStr "amount=5")] (fresh Fixture.client)
                    (c_uri Fixture.post_call) eq_refl eq_refl)).
    right. right. exists (VStr "amount=5"). split; reflexivity.
  - apply (proj2 (@request_encodes_only_nonempty_dict Fixture.env "post" ["v1"; "addresses"]
                    [] (fresh Fixture.client) _ eq_refl eq_refl)).
    left. reflexivity.
Defined.

Lemma client_has_no_callback_verification_witness :
  cached_callback_public_key
    (self (run_operations
             [Op_create_address; Op_send (VStr "5") (VStr "0xabc")]
             (fresh Fixture.client))) = VNone.
Proof.
  destruct (@client_has_no_callback_verification Fixture.env) as (_ & _ & _ & _ & _ & H).
  apply (H (VStr "k1") (VStr "s1") "https://wallet.example/" VNone Fixture.client eq_refl).
Defined.

Lemma canonical_encoding_ignores_insertion_order_witness :
  CanonicalEncoder_encode Fixture.layout
    "POST" "v1/send" 1000 [("amount", "5"); ("address", "0xabc")]
  = CanonicalEncoder_encode Fixture.layout
      "POST" "v1/send" 1000 [("address", "0xabc"); ("amount", "5")] /\
  @_request (specified Fixture.env) "post" ["v1"; "send"]
    (dict_set "data" (VDict [("amount", VStr "5"); ("address", VStr "0xabc")]) [])
    (fresh Fixture.client)
  = @_request (specified Fixture.env) "post" ["v1"; "send"]
      (dict_set "data" (VDict [("address", VStr "0xabc"); ("amount", VStr "5")]) [])
      (fresh Fixture.client).
Proof.
  destruct canonical_encoding_ignores_insertion_order as [Hbytes Hrequest].
  split.
  - apply Hbytes; [|apply perm_swap].
    repeat constructor; simpl; intuition discriminate.
  - apply Hrequest; [|apply perm_swap].
    repeat constructor; simpl; intuition discriminate.
Defined.

(** ** More on the request path *)

Section RequestPath.

Context {env : Collaborators}.

Lemma dict_lookup_has (d : dict) (k : string) :
  dict_has d k = match dict_lookup d k with Some _ => true | None => false end.
Proof.
  unfold dict_has. induction d as [|[k' v] d IH]; simpl; [reflexivity|].
  destruct (String.eqb k k'); [reflexivity | exact IH].
Qed.

Lemma dict_set_keys (k : string) (v : value) (d : dict) :
  map fst (dict_set k v d) = map fst d ++ (if dict_has d k then [] else [k]).
Proof.
  unfold dict_has. induction d as [|[k' v'] d IH]; simpl; [reflexivity|].
  destruct (String.eqb_spec k k') as [->|Hne]; simpl.
  - now rewrite app_nil_r.
  - now rewrite IH.
Qed.

Lemma set_verify_lookup (flag : value) (kwargs : dict) :
  dict_lookup (set_verify flag kwargs) "verify" = Some flag.
Proof. apply verify_option_set. Qed.

Lemma set_verify_lookup_other (flag : value) (kwargs : dict) (k : string) :
  k <> "verify" -> dict_lookup (set_verify flag kwargs) k = dict_lookup kwargs k.
Proof.
  intros Hne. unfold set_verify, dict_update. simpl.
  rewrite dict_lookup_set_other by congruence.
  destruct (truthy flag); apply dict_lookup_setdefault_other; congruence.
Qed.

Lemma set_verify_keys (flag : value) (kwargs : dict) :
  map fst (set_verify flag kwargs)
  = map fst kwargs ++ (if dict_has kwargs "verify" then [] else ["verify"]).
Proof.
  unfold set_verify, dict_update. simpl. rewrite dict_set_keys.
  assert (H : forall v,
             map fst (dict_setdefault "verify" v kwargs)
             = map fst kwargs ++ (if dict_has kwargs "verify" then [] else ["verify"]) /\
             dict_has (dict_setdefault "verify" v kwargs) "verify" = true).
  { intros v. unfold dict_setdefault. rewrite (dict_lookup_has kwargs "verify").
    destruct (dict_lookup kwargs "verify") as [v0|] eqn:E.
    - rewrite app_nil_r. split; [reflexivity|]. now rewrite dict_lookup_has, E.
    - rewrite dict_set_keys, dict_lookup_has, E. split; [reflexivity|].
      now rewrite dict_lookup_has, dict_lookup_set_same. }
  destruct (truthy flag);
    [destruct (H (VStr ETHCLIENT_CRT_PATH)) as [-> ->]
    | destruct (H (VBool false)) as [-> ->]];
    now rewrite app_nil_r.
Qed.

Lemma settle_body_lookup_other (kwargs kwargs' : dict) (k : string) :
  settle_body kwargs = Ok kwargs' -> k <> "data" ->
  dict_lookup kwargs' k = dict_lookup kwargs k.
Proof.
  unfold settle_body. intros H Hne.
  destruct (dict_lookup kwargs "data") as [[| | | |[|item items]]|];
    try (injection H as <-; reflexivity).
  destruct (encode_params (item :: items)); [|discriminate].
  injection H as <-. apply dict_lookup_set_other. congruence.
Qed.

Lemma settle_body_keys (kwargs kwargs' : dict) :
  settle_body kwargs = Ok kwargs' ->
  map fst kwargs' = map fst kwargs /\ dict_has kwargs' "verify" = dict_has kwargs "verify".
Proof.
  unfold settle_body. intros H.
  destruct (dict_lookup kwargs "data") as [[| | | |[|item items]]|] eqn:Hdata;
    try (injection H as <-; split; reflexivity).
  destruct (encode_params (item :: items)); [|discriminate].
  injection H as <-. split.
  - rewrite dict_set_keys, dict_lookup_has, Hdata. apply app_nil_r.
  - rewrite !dict_lookup_has. now rewrite dict_lookup_set_other by discriminate.
Qed.

(** The call that [_request] sent, from the log. *)
Lemma _request_sent_call
    (method : string) (parts : list string) (kwargs : dict) (w : world) (c : call) :
  sent (snd (_request method parts kwargs w)) = sent w ++ [c] ->
  exists uri kwargs',
    urljoin (BASE_API_URI (self w)) (relative_reference parts) = Ok uri /\
    settle_body kwargs = Ok kwargs' /\
    session_hasattr method = true /\
    c = {| c_method := method; c_uri := uri;
           c_kwargs := set_verify (VERIFY_SSL (self w)) kwargs' |}.
Proof.
  rewrite _request_steps.
  destruct (urljoin (BASE_API_URI (self w)) (relative_reference parts)) as [uri|e];
    [|cbn [snd]; intros H; now apply app_one_not_self in H].
  destruct (settle_body kwargs) as [kwargs'|e];
    [|cbn [snd]; intros H; now apply app_one_not_self in H].
  destruct (session_hasattr method);
    [|cbn [snd]; intros H; now apply app_one_not_self in H].
  cbv zeta. cbn [snd sent]. intros H. apply app_inv_head in H. injection H as <-.
  exists uri, kwargs'. repeat split.
Qed.

(** X1: an argument of [_request] other than [data] and [verify] reaches the
    session as the caller gave it, and one the caller did not give is not
    added. *)
Theorem request_passes_other_arguments
    (method : string) (parts : list string) (kwargs : dict) (w : world) (c : call)
    (k : string) :
  sent (snd (_request method parts kwargs w)) = sent w ++ [c] ->
  k <> "data" -> k <> "verify" ->
  dict_lookup (c_kwargs c) k = dict_lookup kwargs k.
Proof.
  intros Hsent Hdata Hverify.
  destruct (_request_sent_call _ _ _ _ _ Hsent) as (uri & kwargs' & _ & Hbody & _ & ->).
  cbn [c_kwargs]. rewrite set_verify_lookup_other by exact Hverify.
  now apply settle_body_lookup_other.
Qed.

(** X2: the [verify] option of a call is the object's [VERIFY_SSL],
    whatever that is and whatever [verify] the caller passed to
    [_request]. *)
Theorem request_overrides_caller_verify
    (method : string) (parts : list string) (kwargs : dict) (w : world) (c : call) :
  sent (snd (_request method parts kwargs w)) = sent w ++ [c] ->
  dict_lookup (c_kwargs c) "verify" = Some (VERIFY_SSL (self w)).
Proof.
  intros Hsent.
  destruct (_request_sent_call _ _ _ _ _ Hsent) as (uri & kwargs' & _ & _ & _ & ->).
  apply set_verify_lookup.
Qed.

(** X3: when the endpoint URI does not resolve, or the [data] dict does not
    encode, [_request] raises that exception and hands nothing to the
    session: the calls sent are the ones sent before. *)
Theorem request_fails_before_sending
    (method : string) (parts : list string) (kwargs : dict) (w : world) (e : exn) :
  urljoin (BASE_API_URI (self w)) (relative_reference parts) = Raise e \/
  (exists uri items,
      urljoin (BASE_API_URI (self w)) (relative_reference parts) = Ok uri /\
      dict_lookup kwargs "data" = Some (VDict items) /\
      items <> [] /\
      encode_params items = Raise e) ->
  _request method parts kwargs w = (Raise e, w).
Proof.
  rewrite _request_steps.
  intros [-> | (uri & items & -> & Hdata & Hne & Henc)]; [reflexivity|].
  unfold settle_body. rewrite Hdata.
  destruct items as [|item items]; [contradiction|]. now rewrite Henc.
Qed.

(** X4: once a call is handed to the session, [_request] returns
    [response.json()] of the response and raises what the transport or
    [json()] raises; the call counts as sent in each case and the object
    is as it was. *)
Theorem request_returns_response_json
    (method : string) (parts : list string) (kwargs : dict) (w : world) (c : call) :
  sent (snd (_request method parts kwargs w)) = sent w ++ [c] ->
  fst (_request method parts kwargs w) = result_bind (transport c) response_json /\
  self (snd (_request method parts kwargs w)) = self w /\
  (forall e, transport c = Raise e -> fst (_request method parts kwargs w) = Raise e) /\
  (forall r, transport c = Ok r ->
             fst (_request method parts kwargs w) = response_json r).
Proof.
  intros Hsent.
  destruct (_request_sent_call _ _ _ _ _ Hsent)
    as (uri & kwargs' & Huri & Hbody & Hattr & Hc).
  rewrite _request_steps, Huri, Hbody, Hattr. cbv zeta. rewrite <- Hc. cbn [fst snd self].
  repeat split.
  - intros e ->. reflexivity.
  - intros r ->. reflexivity.
Qed.

(** X5: a sequence of operations leaves the client object as it was, keeps
    the calls sent before it and adds at most one call per operation. *)
Theorem operations_only_append_calls (ops : list operation) (w : world) :
  self (run_operations ops w) = self w /\
  exists added,
    sent (run_operations ops w) = sent w ++ added /\
    length added <= length ops.
Proof.
  split; [apply run_operations_self|].
  revert w. induction ops as [|op ops IH]; intros w; simpl.
  - exists []. split; [now rewrite app_nil_r | reflexivity].
  - destruct (run_operation_is_request op) as (m & parts & kw & ->).
    destruct (IH (snd (_request m parts kw w))) as (added & -> & Hlen).
    destruct (_request_effect m parts kw w) as [_ [-> | (c & -> & _)]].
    + exists added. split; [reflexivity | lia].
    + exists (c :: added). split; [now rewrite <- app_assoc | simpl; lia].
Qed.

(** X6: [create_address] hands one [post] call to the session, for the URI
    that the reference [v1/addresses//] resolves to, with [verify] as its
    only keyword argument: no [data] is sent. *)
Theorem create_address_posts_without_data (w : world) (uri : string) :
  urljoin (BASE_API_URI (self w)) "v1/addresses//" = Ok uri ->
  let c := {| c_method := "post"; c_uri := uri;
              c_kwargs := [("verify", VERIFY_SSL (self w))] |} in
  relative_reference ["v1"; "addresses"] = "v1/addresses//" /\
  create_address w
  = (result_bind (transport c) response_json,
     {| self := self w; sent := sent w ++ [c] |}).
Proof.
  intros Huri c. split; [reflexivity|].
  unfold create_address, _post. rewrite _request_steps.
  change (relative_reference ["v1"; "addresses"]) with "v1/addresses//".
  rewrite Huri. cbn [settle_body dict_lookup]. cbv zeta.
  replace (set_verify (VERIFY_SSL (self w)) []) with [("verify", VERIFY_SSL (self w))]
    by (unfold set_verify; destruct (truthy (VERIFY_SSL (self w))); reflexivity).
  reflexivity.
Qed.

(** X7: the call holds the keyword arguments the caller gave, by name and
    in their order, with [verify] added last when the caller gave none; no
    name is dropped and none comes twice. *)
Theorem request_keeps_argument_names
    (method : string) (parts : list string) (kwargs : dict) (w : world) (c : call) :
  sent (snd (_request method parts kwargs w)) = sent w ++ [c] ->
  map fst (c_kwargs c)
  = map fst kwargs ++ (if dict_has kwargs "verify" then [] else ["verify"]).
Proof.
  intros Hsent.
  destruct (_request_sent_call _ _ _ _ _ Hsent) as (uri & kwargs' & _ & Hbody & _ & ->).
  cbn [c_kwargs]. rewrite set_verify_keys.
  now destruct (settle_body_keys _ _ Hbody) as [-> ->].
Qed.

End RequestPath.

(** ** More on construction *)

Section Construction.

Context {env : Collaborators}.

Lemma dict_update_lookup_other (items d : dict) (k : string) :
  dict_has items k = false ->
  dict_lookup (dict_update items d) k = dict_lookup d k.
Proof.
  unfold dict_update, dict_has. revert d.
  induction items as [|[k' v] items IH]; intros d H; simpl in *; [reflexivity|].
  apply orb_false_iff in H. destruct H as [Hk Hrest].
  rewrite IH by exact Hrest.
  apply dict_lookup_set_other. intros ->. now rewrite String.eqb_refl in Hk.
Qed.

(** X8: a client is built with the version the caller gave, or with the
    class default [2016-05-17] when the caller gave none or a false one
    ([None], the empty string); the signer of its session is
    [HMACAuth(api_key, api_secret, version)] for that same version. *)
Theorem construction_sets_version_and_signer
    (api_key api_secret : value) (base_api_uri : string) (api_version : value) (c : Client) :
  __init__ api_key api_secret base_api_uri api_version = Ok c ->
  API_VERSION c = (if truthy api_version then api_version else VStr "2016-05-17") /\
  auth (session c) = HMACAuth api_key api_secret (API_VERSION c).
Proof.
  unfold __init__.
  destruct (truthy api_key); [|discriminate].
  destruct (truthy api_secret); [|discriminate].
  cbn [negb]. destruct (check_uri_security base_api_uri) as [base|e]; [|discriminate].
  cbn [result_bind]. intros [= <-]. split; reflexivity.
Qed.

(** *** Session headers *)

Lemma header_lookup_set (name name' : string) (v : value) (h : dict) :
  header_lookup (header_set name v h) name'
  = if String.eqb (lower name') (lower name) then Some v else header_lookup h name'.
Proof.
  induction h as [|[k v'] rest IH]; cbn [header_set header_lookup]; [reflexivity|].
  destruct (String.eqb_spec (lower name) (lower k)) as [E|E]; cbn [header_lookup].
  - rewrite <- E. now destruct (String.eqb (lower name') (lower name)).
  - destruct (String.eqb_spec (lower name') (lower k)) as [E'|E']; [|exact IH].
    destruct (String.eqb_spec (lower name') (lower name)); [congruence | reflexivity].
Qed.

(** [h.update(items)] gives each name the value of the last item of that
    name, and leaves every other name as [h] has it. *)
Lemma header_lookup_update (items h : dict) (name : string) :
  header_lookup (header_update items h) name
  = match header_lookup (rev items) name with
    | Some v => Some v
    | None => header_lookup h name
    end.
Proof.
  unfold header_update. revert h.
  induction items as [|[k v] items IH]; intros h; [reflexivity|].
  cbn [fold_left fst snd rev]. rewrite IH, header_lookup_set.
  assert (Hlast : forall l,
             header_lookup (l ++ [(k, v)]) name
             = match header_lookup l name with
               | Some v' => Some v'
               | None => if String.eqb (lower name) (lower k) then Some v else None
               end).
  { induction l as [|[k' v'] l IHl]; cbn [app header_lookup]; [reflexivity|].
    now destruct (String.eqb (lower name) (lower k')). }
  rewrite Hlast.
  destruct (header_lookup (rev items) name); [reflexivity|].
  now destruct (String.eqb (lower name) (lower k)).
Qed.

(** Items of different names can be listed in any order. *)
Lemma header_lookup_permutation (l1 l2 : dict) (name : string) :
  Permutation l1 l2 ->
  NoDup (map (fun kv => lower (fst kv)) l1) ->
  header_lookup l1 name = header_lookup l2 name.
Proof.
  induction 1 as [|[k v] l1 l2 Hperm IH|[k1 v1] [k2 v2] l|l1 l2 l3 H12 IH12 H23 IH23];
    intros Hnodup.
  - reflexivity.
  - cbn [header_lookup]. inversion Hnodup; subst. now rewrite IH.
  - cbn [header_lookup].
    destruct (String.eqb_spec (lower name) (lower k1)) as [E1|_];
      destruct (String.eqb_spec (lower name) (lower k2)) as [E2|_]; try reflexivity.
    exfalso. inversion Hnodup as [|? ? Hnotin _]; subst.
    apply Hnotin. left. cbn [fst]. congruence.
  - rewrite IH12 by exact Hnodup. apply IH23.
    apply (Permutation_NoDup (l := map (fun kv => lower (fst kv)) l1)); [|exact Hnodup].
    now apply Permutation_map.
Qed.

(** [h.update(items)] for items of different names: the order in which the
    items are gone through does not show in the headers. *)
Lemma header_update_order (items items' h : dict) (name : string) :
  Permutation items items' ->
  NoDup (map (fun kv => lower (fst kv)) items) ->
  header_lookup (header_update items h) name
  = header_lookup (header_update items' h) name.
Proof.
  intros Hperm Hnodup. rewrite !header_lookup_update.
  rewrite (header_lookup_permutation (rev items) (rev items') name); [reflexivity| |].
  - now rewrite <- !Permutation_rev.
  - rewrite map_rev. now apply NoDup_rev.
Qed.

(** X9: the session of a new client holds [Accept] and [Content-Type]
    [application/json] and the [User-Agent] [ethwallet/python/3.0]; the
    headers of a session are looked up without regard to case, so this is
    what any spelling of the three names gives, whatever a fresh [requests]
    session had there.  A header of another name is as the fresh session
    had it.  The three names differ, so the order in which [update] goes
    through them does not show ([header_update_order]). *)
Theorem construction_sets_session_headers
    (api_key api_secret : value) (base_api_uri : string) (api_version : value) (c : Client) :
  __init__ api_key api_secret base_api_uri api_version = Ok c ->
  forall name : string,
    (lower name = "accept" ->
     header_lookup (headers (session c)) name = Some (VStr "application/json")) /\
    (lower name = "content-type" ->
     header_lookup (headers (session c)) name = Some (VStr "application/json")) /\
    (lower name = "user-agent" ->
     header_lookup (headers (session c)) name = Some (VStr "ethwallet/python/3.0")) /\
    (lower name <> "accept" -> lower name <> "content-type" -> lower name <> "user-agent" ->
     header_lookup (headers (session c)) name = header_lookup default_headers name).
Proof.
  unfold __init__.
  destruct (truthy api_key); [|discriminate].
  destruct (truthy api_secret); [|discriminate].
  cbn [negb]. destruct (check_uri_security base_api_uri) as [base|e]; [|discriminate].
  cbn [result_bind]. intros [= <-] name. cbn [session _build_session headers].
  unfold header_update. cbn [fold_left fst snd].
  rewrite !header_lookup_set.
  change (lower "User-Agent") with "user-agent".
  change (lower "Content-Type") with "content-type".
  change (lower "Accept") with "accept".
  split; [|split; [|split]].
  - intros ->. reflexivity.
  - intros ->. reflexivity.
  - intros ->. reflexivity.
  - intros H1 H2 H3.
    destruct (String.eqb_spec (lower name) "user-agent"); [contradiction|].
    destruct (String.eqb_spec (lower name) "content-type"); [contradiction|].
    destruct (String.eqb_spec (lower name) "accept"); [contradiction|].
    reflexivity.
Qed.

End Construction.

(** ** More on endpoint references *)

Lemma quote_app (a b : string) : quote (a ++ b) = (quote a ++ quote b)%string.
Proof.
  induction a as [|c a IH]; simpl; [reflexivity|].
  now rewrite IH, string_app_assoc.
Qed.

Lemma quote_kept (s : string) : all_bytes kept_byte s = true -> quote s = s.
Proof.
  induction s as [|c s IH]; simpl; [reflexivity|].
  intros H. apply andb_true_iff in H. destruct H as [Hc Hs].
  unfold quote_byte. unfold kept_byte in Hc. rewrite Hc. simpl. now rewrite IH.
Qed.

Lemma map_quote_kept (parts : list string) :
  Forall (fun p => all_bytes kept_byte p = true) parts -> map quote parts = parts.
Proof.
  induction 1 as [|p parts Hp _ IH]; simpl; [reflexivity|].
  now rewrite (quote_kept p Hp), IH.
Qed.

Lemma all_bytes_app (p : ascii -> bool) (a b : string) :
  all_bytes p (a ++ b) = all_bytes p a && all_bytes p b.
Proof.
  induction a as [|c a IH]; simpl; [reflexivity|].
  now rewrite IH, andb_assoc.
Qed.

Lemma quote_byte_reference (c : ascii) : all_bytes reference_byte (quote_byte c) = true.
Proof. destruct c as [[] [] [] [] [] [] [] []]; reflexivity. Qed.

Lemma quote_reference (s : string) : all_bytes reference_byte (quote s) = true.
Proof.
  induction s as [|c s IH]; simpl; [reflexivity|].
  now rewrite all_bytes_app, quote_byte_reference, IH.
Qed.

Lemma join_cons (sep p : string) (parts : list string) :
  parts <> [] -> join sep (p :: parts) = (p ++ sep ++ join sep parts)%string.
Proof. destruct parts; [contradiction | reflexivity]. Qed.

Lemma all_bytes_join (p : ascii -> bool) (sep : string) (parts : list string) :
  all_bytes p sep = true ->
  Forall (fun part => all_bytes p part = true) parts ->
  all_bytes p (join sep parts) = true.
Proof.
  intros Hsep. induction 1 as [|part parts Hpart _ IH]; [reflexivity|].
  destruct parts as [|q parts]; [exact Hpart|].
  rewrite join_cons by discriminate.
  now rewrite !all_bytes_app, Hpart, Hsep, IH.
Qed.

Lemma all_bytes_excludes (p : ascii -> bool) (b : ascii) (s : string) :
  all_bytes p s = true -> p b = false -> contains_byte b s = false.
Proof.
  intros Hs Hb. induction s as [|c s IH]; simpl in *; [reflexivity|].
  apply andb_true_iff in Hs. destruct Hs as [Hc Hs].
  rewrite (IH Hs), orb_false_r.
  destruct (Ascii.eqb_spec b c) as [->|]; [congruence | reflexivity].
Qed.

Lemma join_split_part (sep a b : string) (before after : list string) :
  join sep (before ++ [(a ++ sep ++ b)%string] ++ after)
  = join sep (before ++ [a; b] ++ after).
Proof.
  induction before as [|p before IH].
  - cbn [app]. destruct after as [|q after]; [reflexivity|].
    rewrite (join_cons sep (a ++ sep ++ b)) by discriminate.
    rewrite (join_cons sep a) by discriminate.
    rewrite (join_cons sep b) by discriminate.
    now rewrite !string_app_assoc.
  - change ((p :: before) ++ [(a ++ sep ++ b)%string] ++ after)
      with (p :: (before ++ [(a ++ sep ++ b)%string] ++ after)).
    change ((p :: before) ++ [a; b] ++ after) with (p :: (before ++ [a; b] ++ after)).
    rewrite !join_cons by (intros H; apply app_eq_nil in H; destruct H; discriminate).
    now rewrite IH.
Qed.

(** X10: a ['/'] inside a part is not quoted, so a part [a/b] gives the
    endpoint reference of the two parts [a] and [b]. *)
Theorem slash_in_part_splits_it (a b : string) (before after : list string) :
  relative_reference (before ++ [(a ++ "/" ++ b)%string] ++ after)
  = relative_reference (before ++ [a; b] ++ after).
Proof.
  unfold relative_reference. cbv zeta.
  rewrite <- !app_assoc, !map_app.
  change (map quote [(a ++ "/" ++ b)%string]) with [quote (a ++ "/" ++ b)].
  rewrite !quote_app. change (quote "/") with "/".
  change (map quote [a; b]) with [quote a; quote b].
  change ([(quote a ++ "/" ++ quote b)%string] ++ map quote after ++ map quote ["/"])
    with ([(quote a ++ "/" ++ quote b)%string] ++ (map quote after ++ map quote ["/"])).
  apply join_split_part.
Qed.

(** X11: for parts made of letters, digits and the characters [_.-/], the
    endpoint reference is the parts as they are, joined with ['/'] and
    followed by ['//']. *)
Theorem safe_parts_reference (parts : list string) :
  parts <> [] ->
  Forall (fun p => all_bytes kept_byte p = true) parts ->
  relative_reference parts = (join "/" parts ++ "//")%string.
Proof.
  intros Hne Hsafe. unfold relative_reference. cbv zeta.
  rewrite map_app, (map_quote_kept parts Hsafe).
  change (map quote ["/"]) with ["/"].
  now rewrite join_snoc.
Qed.

(** X12: an endpoint reference holds letters, digits and the characters
    [_.-~/%] only: whatever the parts, no other byte -- a ['?'], a ['#'], a
    space -- reaches it unquoted. *)
Theorem reference_has_only_reference_bytes (parts : list string) :
  all_bytes reference_byte (relative_reference parts) = true /\
  forall b : ascii,
    reference_byte b = false -> contains_byte b (relative_reference parts) = false.
Proof.
  assert (H : all_bytes reference_byte (relative_reference parts) = true).
  { unfold relative_reference. cbv zeta. apply all_bytes_join; [reflexivity|].
    apply Forall_forall. intros part Hin. apply in_map_iff in Hin.
    destruct Hin as (p & <- & _). apply quote_reference. }
  split; [exact H|]. intros b Hb. now apply (all_bytes_excludes reference_byte).
Qed.

(** ** Resolving endpoint references

    How [Urllib.urljoin] resolves the references that [_create_api_uri]
    builds. *)

(** *** Parsing a reference *)

Lemma cut_absent (c : ascii) (s : string) :
  contains_byte c s = false -> Urllib.cut c s = None.
Proof.
  induction s as [|x s IH]; simpl; [reflexivity|].
  intros H. apply orb_false_iff in H. destruct H as [Hx Hs].
  rewrite Ascii.eqb_sym, Hx. now rewrite (IH Hs).
Qed.

Lemma split_netloc_bytes (p : ascii -> bool) (s : string) :
  all_bytes p s = true ->
  all_bytes p (fst (Urllib.split_netloc s)) = true /\
  all_bytes p (snd (Urllib.split_netloc s)) = true.
Proof.
  induction s as [|c s IH]; simpl; [now split|].
  intros H. apply andb_true_iff in H. destruct H as [Hc Hs].
  destruct (Ascii.eqb c "/" || Ascii.eqb c "?" || Ascii.eqb c "#").
  - simpl. now rewrite Hc, Hs.
  - destruct (Urllib.split_netloc s) as [n t]. simpl in *.
    destruct (IH Hs) as [Hn Ht]. now rewrite Hc, Hn, Ht.
Qed.

(** The two parts [split_netloc] gives make up the text, and the first has
    no ['/']. *)
Lemma split_netloc_parts (s : string) :
  s = (fst (Urllib.split_netloc s) ++ snd (Urllib.split_netloc s))%string /\
  contains_byte "/" (fst (Urllib.split_netloc s)) = false.
Proof.
  induction s as [|c s IH]; [now split|].
  cbn [Urllib.split_netloc].
  destruct (Ascii.eqb c "/") eqn:E; cbn [orb]; [split; reflexivity|].
  destruct (Ascii.eqb c "?" || Ascii.eqb c "#"); [split; reflexivity|].
  destruct (Urllib.split_netloc s) as [n t]. cbn [fst snd append contains_byte] in *.
  destruct IH as [IH1 IH2]. split; [now rewrite <- IH1|].
  rewrite Ascii.eqb_sym, E. exact IH2.
Qed.

Lemma drop2_bytes (p : ascii -> bool) (s : string) :
  all_bytes p s = true -> all_bytes p (Urllib.drop2 s) = true.
Proof.
  destruct s as [|a [|b s]]; simpl; try reflexivity.
  intros H. apply andb_true_iff in H. destruct H as [_ H].
  apply andb_true_iff in H. now destruct H.
Qed.

Lemma urlparse_reference (ref default : string) :
  all_bytes reference_byte ref = true ->
  Urllib.urlparse ref default =
  Ok {| Urllib.scheme := default;
        Urllib.netloc := fst (reference_netloc_path ref);
        Urllib.path := snd (reference_netloc_path ref);
        Urllib.params := ""; Urllib.query := ""; Urllib.fragment := "" |}.
Proof.
  intros Href.
  assert (Hex : forall b, reference_byte b = false -> forall t,
               all_bytes reference_byte t = true -> contains_byte b t = false).
  { intros b Hb t Ht. now apply (all_bytes_excludes reference_byte). }
  assert (Hnp : all_bytes reference_byte (fst (reference_netloc_path ref)) = true /\
                all_bytes reference_byte (snd (reference_netloc_path ref)) = true).
  { unfold reference_netloc_path. destruct (starts_with "//" ref).
    - apply split_netloc_bytes. now apply drop2_bytes.
    - now split. }
  destruct Hnp as [Hn Hp].
  unfold Urllib.urlparse, Urllib.urlsplit, Urllib.split_scheme.
  rewrite (cut_absent ":" ref) by (now apply Hex).
  fold (reference_netloc_path ref).
  destruct (reference_netloc_path ref) as [n p]. cbn [fst snd] in *.
  rewrite (Hex "["%char eq_refl n Hn), (Hex "]"%char eq_refl n Hn). cbn [andb orb negb].
  rewrite (cut_absent "#" p) by (now apply Hex).
  rewrite (cut_absent "?" p) by (now apply Hex).
  cbn [result_bind Urllib.s_scheme Urllib.s_path Urllib.s_netloc Urllib.s_query
         Urllib.s_fragment].
  rewrite (Hex ";"%char eq_refl p Hp), andb_false_r. reflexivity.
Qed.

Lemma reference_bytes (parts : list string) :
  all_bytes reference_byte (relative_reference parts) = true.
Proof.
  unfold relative_reference. cbv zeta. apply all_bytes_join; [reflexivity|].
  apply Forall_forall. intros part Hin. apply in_map_iff in Hin.
  destruct Hin as (p & <- & _). apply quote_reference.
Qed.

Lemma reference_form (parts : list string) :
  relative_reference parts
  = (join "/" (map quote parts) ++ match parts with [] => "/" | _ :: _ => "//" end)%string.
Proof.
  unfold relative_reference. cbv zeta. rewrite map_app.
  change (map quote ["/"]) with ["/"].
  destruct parts as [|p parts]; [reflexivity|].
  rewrite join_snoc by (simpl; discriminate). reflexivity.
Qed.

Lemma reference_ends_with_slash (parts : list string) :
  ends_with_slash (relative_reference parts) = true.
Proof. rewrite reference_form. apply ends_with_slash_app. now destruct parts. Qed.

Lemma string_app_empty (a b : string) : (a ++ b)%string = "" -> a = "" /\ b = "".
Proof. destruct a; simpl; [now split | discriminate]. Qed.

Lemma quote_empty (s : string) : quote s = "" -> s = "".
Proof.
  destruct s as [|c s]; [reflexivity|]. simpl. intros H.
  apply string_app_empty in H. destruct H as [H _].
  unfold quote_byte in H. destruct (always_safe c || Ascii.eqb c "/"); discriminate.
Qed.

Lemma string_length_app (a b : string) :
  String.length (a ++ b) = String.length a + String.length b.
Proof. induction a as [|c a IH]; simpl; [reflexivity | now rewrite IH]. Qed.

Lemma string_app_same_tail (a b : string) : (a ++ b)%string = b -> a = "".
Proof.
  intros H. apply (f_equal String.length) in H.
  rewrite string_length_app in H. destruct a; [reflexivity | simpl in H; lia].
Qed.

(** Only the single empty part gives the reference [//]. *)
Lemma reference_two_slashes (parts : list string) :
  relative_reference parts = "//" -> parts = [""].
Proof.
  rewrite reference_form. destruct parts as [|p parts]; [discriminate|].
  intros H. apply string_app_same_tail in H.
  destruct parts as [|q parts].
  - simpl in H. now rewrite (quote_empty p H).
  - unfold join in H. simpl in H. apply string_app_empty in H. destruct H as [_ H].
    discriminate.
Qed.

Lemma ends_with_slash_tail (a b : string) :
  b <> "" -> ends_with_slash (a ++ b) = ends_with_slash b.
Proof.
  intros Hb. induction a as [|c a IH]; [reflexivity|].
  cbn [append ends_with_slash]. rewrite IH.
  destruct (a ++ b)%string eqn:E; [|reflexivity].
  apply string_app_empty in E. destruct E as [_ E]. contradiction.
Qed.

Lemma ends_with_slash_has_slash (s : string) :
  ends_with_slash s = true -> contains_byte "/" s = true.
Proof.
  induction s as [|c s IH]; [discriminate|].
  cbn [ends_with_slash contains_byte]. destruct s as [|d s].
  - intros H. now rewrite Ascii.eqb_sym, H.
  - intros H. rewrite (IH H). apply orb_true_r.
Qed.

Lemma prefix_two_slashes (s : string) :
  starts_with "//" s = true -> s = ("//" ++ Urllib.drop2 s)%string.
Proof.
  destruct s as [|a [|b s]]; cbn [starts_with Urllib.drop2]; intros H.
  - discriminate.
  - rewrite andb_false_r in H. discriminate.
  - apply andb_true_iff in H. destruct H as [Ha H].
    apply andb_true_iff in H. destruct H as [Hb _].
    apply Ascii.eqb_eq in Ha, Hb. now subst.
Qed.

(** The path of a reference that ends with ['/']: it ends with ['/'] too,
    unless it is empty, which only the reference [//] makes it. *)
Lemma reference_path_ends_with_slash (ref : string) :
  ends_with_slash ref = true ->
  (snd (reference_netloc_path ref) = "" -> ref = "//") /\
  (snd (reference_netloc_path ref) <> "" ->
   ends_with_slash (snd (reference_netloc_path ref)) = true).
Proof.
  intros Hend. unfold reference_netloc_path.
  destruct (starts_with "//" ref) eqn:Hpre; cbn [snd].
  - pose proof (prefix_two_slashes ref Hpre) as Href.
    destruct (split_netloc_parts (Urllib.drop2 ref)) as [Hparts Hnoslash].
    destruct (Urllib.split_netloc (Urllib.drop2 ref)) as [n p]. cbn [fst snd] in *.
    split.
    + intros ->. 
      assert (Hn : Urllib.drop2 ref = n).
      { rewrite Hparts. clear. induction n; simpl; congruence. }
      destruct n as [|c n]; [now rewrite Href, Hn|].
      exfalso. rewrite Href, Hn, ends_with_slash_tail in Hend by discriminate.
      apply ends_with_slash_has_slash in Hend. congruence.
    + intros Hp. rewrite Href, Hparts in Hend.
      rewrite <- string_app_assoc in Hend.
      now rewrite ends_with_slash_tail in Hend by exact Hp.
  - split; [|intros _; exact Hend].
    intros ->. discriminate.
Qed.

Lemma urlunparse_ends_with_slash (scheme netloc path : string) :
  ends_with_slash path = true ->
  ends_with_slash (Urllib.urlunparse scheme netloc path "" "" "") = true.
Proof.
  intros Hpath. unfold Urllib.urlunparse, Urllib.urlunsplit. cbn [String.eqb].
  assert (Hslash : ends_with_slash ("/" ++ path) = true)
    by (now apply ends_with_slash_app).
  destruct (negb (String.eqb netloc "")
            || negb (String.eqb scheme "") && Urllib.among scheme Urllib.uses_netloc
               && negb (starts_with "//" path));
    destruct (String.eqb scheme "");
    destruct (negb (String.eqb path "") && negb (starts_with "/" path));
    repeat apply ends_with_slash_app; assumption.
Qed.

Lemma split_ends_with_slash (s : string) :
  ends_with_slash s = true ->
  exists init, Urllib.split "/" s = init ++ [""] /\ init <> [].
Proof.
  induction s as [|c s IH]; [discriminate|].
  cbn [ends_with_slash Urllib.split]. destruct s as [|d s].
  - intros ->. exists [""]. split; [reflexivity | discriminate].
  - intros H. destruct (IH H) as (init & Hinit & Hne). rewrite Hinit.
    destruct (Ascii.eqb c "/").
    + exists ("" :: init). split; [reflexivity | discriminate].
    + destruct init as [|first init]; [contradiction|].
      exists (String c first :: init). split; [reflexivity | discriminate].
Qed.

Lemma filter_middle_last (l : list string) :
  exists kept, Urllib.filter_middle (l ++ [""]) = kept ++ [""].
Proof.
  destruct l as [|x l].
  - exists []. reflexivity.
  - unfold Urllib.filter_middle. cbn [app].
    destruct (l ++ [""]) as [|y rest] eqn:E.
    { destruct l; discriminate. }
    rewrite <- E. rewrite removelast_last, last_last.
    exists (x :: filter (fun s => negb (String.eqb s "")) l). reflexivity.
Qed.

Lemma resolve_last_empty (l : list string) :
  Urllib.resolve (l ++ [""]) = Urllib.resolve l ++ [""].
Proof. unfold Urllib.resolve. rewrite fold_left_app. reflexivity. Qed.

(** The path [urljoin] puts together from segments that end with the empty
    one ends with ['/']. *)
Lemma joined_path_ends_with_slash (kept : list string) :
  let segments := kept ++ [""] in
  let resolved := Urllib.resolve segments in
  let resolved :=
    if String.eqb (last segments "") "." || String.eqb (last segments "") ".."
    then resolved ++ [""] else resolved in
  let joined := join "/" resolved in
  ends_with_slash (if String.eqb joined "" then "/" else joined) = true.
Proof.
  cbv zeta. rewrite last_last. cbn [String.eqb orb]. rewrite resolve_last_empty.
  destruct (Urllib.resolve kept) as [|r rs] eqn:E; [reflexivity|].
  rewrite join_snoc by discriminate.
  destruct (String.eqb (join "/" (r :: rs) ++ "/" ++ "") "") eqn:Hj; [reflexivity|].
  now apply ends_with_slash_app.
Qed.

(** Whatever the base URI, the reference of parts other than the single
    empty part resolves to a URI that ends with ['/']. *)
Theorem urljoin_reference_ends_with_slash (base : string) (parts : list string) (uri : string) :
  parts <> [""] ->
  Urllib.urljoin base (relative_reference parts) = Ok uri ->
  ends_with_slash uri = true.
Proof.
  intros Hparts.
  pose proof (reference_ends_with_slash parts) as Hend.
  pose proof (reference_bytes parts) as Hbytes.
  assert (Hne : relative_reference parts <> "//")
    by (intros H; now apply reference_two_slashes in H).
  destruct (reference_path_ends_with_slash _ Hend) as [Hempty Hpath].
  unfold Urllib.urljoin.
  destruct (String.eqb base ""); [now intros [= <-]|].
  destruct (String.eqb_spec (relative_reference parts) "") as [E|_].
  { rewrite E in Hend. discriminate. }
  destruct (Urllib.urlparse base "") as [b|e]; [|discriminate].
  cbn [result_bind]. rewrite (urlparse_reference _ _ Hbytes). cbn [result_bind].
  cbn [Urllib.scheme Urllib.netloc Urllib.path Urllib.params Urllib.query Urllib.fragment].
  rewrite String.eqb_refl. cbn [negb orb].
  destruct (Urllib.among (Urllib.scheme b) Urllib.uses_relative);
    cbn [negb]; [|now intros [= <-]].
  destruct (String.eqb_spec (snd (reference_netloc_path (relative_reference parts))) "")
    as [Hp|Hp]; [now apply Hempty in Hp|].
  specialize (Hpath Hp).
  destruct (split_ends_with_slash _ Hpath) as (init & Hinit & _). rewrite Hinit.
  assert (Hmerged :
            forall base_parts : list string,
              exists kept,
                (if starts_with "/" (snd (reference_netloc_path (relative_reference parts)))
                 then init ++ [""]
                 else Urllib.filter_middle (base_parts ++ init ++ [""])) = kept ++ [""]).
  { intros base_parts.
    destruct (starts_with "/" (snd (reference_netloc_path (relative_reference parts)))).
    - now exists init.
    - rewrite app_assoc. apply filter_middle_last. }
  match goal with |- context [Urllib.filter_middle (?l ++ init ++ [""])] =>
    destruct (Hmerged l) as (kept & ->) end.
  destruct (Urllib.among (Urllib.scheme b) Urllib.uses_netloc
            && negb (String.eqb (fst (reference_netloc_path (relative_reference parts))) "")).
  { intros [= <-]. now apply urlunparse_ends_with_slash. }
  intros [= <-]. apply urlunparse_ends_with_slash.
  apply joined_path_ends_with_slash.
Qed.

(** *** Resolving under a directory *)

Lemma directory_app (a b : list string) :
  directory (a ++ b) = (directory a ++ directory b)%string.
Proof.
  induction a as [|x a IH]; [reflexivity|].
  cbn [app directory]. now rewrite IH, !string_app_assoc.
Qed.

Lemma join_directory (segs : list string) :
  join "/" (segs ++ [""]) = directory segs.
Proof.
  induction segs as [|seg segs IH]; [reflexivity|].
  cbn [app]. rewrite join_cons by (destruct segs; discriminate).
  now rewrite IH.
Qed.

Lemma split_segment (seg rest : string) :
  contains_byte "/" seg = false ->
  Urllib.split "/" (seg ++ String "/" rest) = seg :: Urllib.split "/" rest.
Proof.
  induction seg as [|c seg IH]; [reflexivity|].
  cbn [contains_byte append Urllib.split]. intros H.
  apply orb_false_iff in H. destruct H as [Hc Hseg].
  rewrite Ascii.eqb_sym, Hc. now rewrite (IH Hseg).
Qed.

Lemma split_directory (segs : list string) (rest : string) :
  Forall (fun seg => contains_byte "/" seg = false) segs ->
  Urllib.split "/" (directory segs ++ rest) = segs ++ Urllib.split "/" rest.
Proof.
  induction 1 as [|seg segs Hseg _ IH]; [reflexivity|].
  cbn [directory app]. rewrite !string_app_assoc.
  change (seg ++ "/" ++ directory segs ++ rest)%string
    with (seg ++ String "/" (directory segs ++ rest))%string.
  rewrite (split_segment seg _ Hseg). now rewrite IH.
Qed.

Lemma resolve_plain (segments : list string) :
  Forall (fun seg => String.eqb seg ".." = false /\ String.eqb seg "." = false) segments ->
  Urllib.resolve segments = segments.
Proof.
  unfold Urllib.resolve.
  assert (H : forall l acc,
             Forall (fun seg => String.eqb seg ".." = false /\ String.eqb seg "." = false) l ->
             fold_left
               (fun resolved seg =>
                  if String.eqb seg ".." then removelast resolved
                  else if String.eqb seg "." then resolved else resolved ++ [seg])
               l acc = acc ++ l).
  { induction l as [|seg l IH]; intros acc Hl; [now rewrite app_nil_r|].
    inversion Hl as [|? ? [H1 H2] Hl']; subst. cbn [fold_left].
    rewrite H1, H2, IH by exact Hl'. now rewrite <- app_assoc. }
  intros Hs. now rewrite H.
Qed.

Lemma plain_segment_facts (seg : string) :
  plain_segment seg = true ->
  seg <> "" /\ String.eqb seg ".." = false /\ String.eqb seg "." = false /\
  all_bytes always_safe seg = true.
Proof.
  unfold plain_segment. intros H.
  apply andb_true_iff in H. destruct H as [H Hbytes].
  apply andb_true_iff in H. destruct H as [H Hdd].
  apply andb_true_iff in H. destruct H as [Hne Hd].
  repeat split.
  - intros ->. discriminate.
  - now apply negb_true_iff.
  - now apply negb_true_iff.
  - exact Hbytes.
Qed.

Lemma all_bytes_weaken (p q : ascii -> bool) (s : string) :
  (forall c, p c = true -> q c = true) -> all_bytes p s = true -> all_bytes q s = true.
Proof.
  intros Hpq. induction s as [|c s IH]; [reflexivity|]. simpl. intros H.
  apply andb_true_iff in H. destruct H as [Hc Hs]. now rewrite (Hpq c Hc), IH.
Qed.

Lemma always_safe_not_slash (c : ascii) : always_safe c = true -> Ascii.eqb c "/" = false.
Proof. destruct c as [[] [] [] [] [] [] [] []]; try reflexivity; discriminate. Qed.

Lemma plain_segment_no_slash (seg : string) :
  plain_segment seg = true -> contains_byte "/" seg = false.
Proof.
  intros H. destruct (plain_segment_facts seg H) as (_ & _ & _ & Hb).
  apply (all_bytes_excludes always_safe); [exact Hb | reflexivity].
Qed.

Lemma plain_segments_no_slash (segs : list string) :
  Forall (fun seg => plain_segment seg = true) segs ->
  Forall (fun seg => contains_byte "/" seg = false) segs.
Proof. apply Forall_impl. exact plain_segment_no_slash. Qed.

Lemma plain_segments_kept (segs : list string) :
  Forall (fun seg => plain_segment seg = true) segs ->
  Forall (fun seg => all_bytes kept_byte seg = true) segs.
Proof.
  apply Forall_impl. intros seg H.
  destruct (plain_segment_facts seg H) as (_ & _ & _ & Hb).
  apply (all_bytes_weaken always_safe); [|exact Hb].
  intros c Hc. unfold kept_byte. now rewrite Hc.
Qed.

Lemma directory_bytes (segs : list string) :
  Forall (fun seg => plain_segment seg = true) segs ->
  all_bytes kept_byte (directory segs) = true.
Proof.
  induction 1 as [|seg segs Hseg _ IH]; [reflexivity|].
  cbn [directory]. rewrite !all_bytes_app, IH.
  destruct (plain_segment_facts seg Hseg) as (_ & _ & _ & Hb).
  rewrite (all_bytes_weaken always_safe kept_byte seg); [reflexivity| |exact Hb].
  intros c Hc. unfold kept_byte. now rewrite Hc.
Qed.

Lemma filter_plain (segs : list string) :
  Forall (fun seg => plain_segment seg = true) segs ->
  filter (fun s => negb (String.eqb s "")) segs = segs.
Proof.
  induction 1 as [|seg segs Hseg _ IH]; [reflexivity|].
  cbn [filter]. rewrite IH.
  destruct (plain_segment_facts seg Hseg) as (Hne & _).
  destruct (String.eqb_spec seg ""); [contradiction | reflexivity].
Qed.

(** The reference of plain parts is the directory of the parts and one
    more ['/']. *)
Lemma plain_reference (parts : list string) :
  parts <> [] ->
  Forall (fun seg => plain_segment seg = true) parts ->
  relative_reference parts = (directory parts ++ "/")%string.
Proof.
  intros Hne Hplain. unfold relative_reference. cbv zeta.
  rewrite map_app, (map_quote_kept parts (plain_segments_kept parts Hplain)).
  change (map quote ["/"]) with ["/"].
  rewrite join_snoc by exact Hne.
  rewrite <- (join_directory parts), join_snoc by exact Hne.
  now rewrite !string_app_assoc.
Qed.

Lemma split_netloc_host (host rest : string) :
  all_bytes host_byte host = true ->
  Urllib.split_netloc (host ++ String "/" rest) = (host, String "/" rest).
Proof.
  induction host as [|c host IH]; [reflexivity|].
  cbn [all_bytes append Urllib.split_netloc]. intros H.
  apply andb_true_iff in H. destruct H as [Hc Hhost].
  assert (Hd : Ascii.eqb c "/" || Ascii.eqb c "?" || Ascii.eqb c "#" = false).
  { revert Hc. clear. destruct c as [[] [] [] [] [] [] [] []]; try reflexivity; discriminate. }
  rewrite Hd. now rewrite (IH Hhost).
Qed.

Lemma urlparse_https_directory (host : string) (segs : list string) :
  well_formed_host host = true ->
  Forall (fun seg => plain_segment seg = true) segs ->
  Urllib.urlparse ("https://" ++ host ++ "/" ++ directory segs) "" =
  Ok {| Urllib.scheme := "https"; Urllib.netloc := host;
        Urllib.path := ("/" ++ directory segs)%string;
        Urllib.params := ""; Urllib.query := ""; Urllib.fragment := "" |}.
Proof.
  intros Hhost Hsegs. unfold well_formed_host in Hhost.
  apply andb_true_iff in Hhost. destruct Hhost as [_ Hhost].
  assert (Hpath : all_bytes kept_byte ("/" ++ directory segs) = true)
    by (rewrite all_bytes_app; now rewrite directory_bytes).
  unfold Urllib.urlparse, Urllib.urlsplit.
  change (Urllib.split_scheme ("https://" ++ host ++ "/" ++ directory segs) "")
    with ("https", ("//" ++ host ++ "/" ++ directory segs)%string).
  cbv beta iota.
  change (starts_with "//" ("//" ++ host ++ "/" ++ directory segs)) with true.
  cbv beta iota.
  change (Urllib.drop2 ("//" ++ host ++ "/" ++ directory segs))
    with (host ++ String "/" (directory segs))%string.
  change ("/" ++ directory segs)%string with (String "/" (directory segs)) in *.
  rewrite (split_netloc_host host _ Hhost).
  rewrite (all_bytes_excludes host_byte "["%char host Hhost eq_refl).
  rewrite (all_bytes_excludes host_byte "]"%char host Hhost eq_refl).
  cbn [andb orb negb].
  rewrite (cut_absent "#" _ (all_bytes_excludes kept_byte "#"%char _ Hpath eq_refl)).
  rewrite (cut_absent "?" _ (all_bytes_excludes kept_byte "?"%char _ Hpath eq_refl)).
  cbn [result_bind Urllib.s_scheme Urllib.s_path Urllib.s_netloc Urllib.s_query
         Urllib.s_fragment].
  rewrite (all_bytes_excludes kept_byte ";"%char _ Hpath eq_refl), andb_false_r.
  reflexivity.
Qed.

Lemma plain_segment_first_byte (seg : string) :
  plain_segment seg = true ->
  exists c rest, seg = String c rest /\ Ascii.eqb c "/" = false.
Proof.
  intros H. destruct (plain_segment_facts seg H) as (Hne & _ & _ & Hb).
  destruct seg as [|c rest]; [contradiction|].
  exists c, rest. split; [reflexivity|].
  cbn [all_bytes] in Hb. apply andb_true_iff in Hb.
  now apply always_safe_not_slash.
Qed.

Lemma directory_not_absolute (segs : list string) (rest : string) :
  segs <> [] ->
  Forall (fun seg => plain_segment seg = true) segs ->
  starts_with "/" (directory segs ++ rest) = false /\
  starts_with "//" (directory segs ++ rest) = false /\
  (directory segs ++ rest)%string <> "".
Proof.
  intros Hne Hplain. destruct Hplain as [|seg segs Hseg _]; [contradiction|].
  destruct (plain_segment_first_byte seg Hseg) as (c & t & -> & Hc).
  cbn [directory append starts_with]. rewrite Ascii.eqb_sym, Hc.
  repeat split; try reflexivity. discriminate.
Qed.

Lemma split_reference (parts : list string) :
  Forall (fun seg => plain_segment seg = true) parts ->
  Urllib.split "/" (directory parts ++ "/") = parts ++ [""; ""].
Proof.
  intros Hplain. now rewrite (split_directory parts "/" (plain_segments_no_slash parts Hplain)).
Qed.

Lemma string_app_nil_r (s : string) : (s ++ "")%string = s.
Proof. induction s as [|c s IH]; simpl; [reflexivity | now rewrite IH]. Qed.

Lemma split_base_path (segs : list string) :
  Forall (fun seg => plain_segment seg = true) segs ->
  Urllib.split "/" (String "/" (directory segs)) = "" :: segs ++ [""].
Proof.
  intros Hplain. cbn [Urllib.split Ascii.eqb Bool.eqb].
  rewrite <- (string_app_nil_r (directory segs)).
  now rewrite (split_directory segs "" (plain_segments_no_slash segs Hplain)).
Qed.

Lemma filter_middle_directories (segs parts : list string) :
  Forall (fun seg => plain_segment seg = true) segs ->
  Forall (fun seg => plain_segment seg = true) parts ->
  Urllib.filter_middle (("" :: segs ++ [""]) ++ parts ++ [""; ""])
  = ("" :: segs ++ parts) ++ [""].
Proof.
  intros Hsegs Hparts. unfold Urllib.filter_middle. cbn [app].
  replace ((segs ++ [""]) ++ parts ++ [""; ""])
    with ((segs ++ [""] ++ parts ++ [""]) ++ [""])
    by (now rewrite <- !app_assoc).
  destruct ((segs ++ [""] ++ parts ++ [""]) ++ [""]) as [|y rest] eqn:E.
  { now destruct segs. }
  rewrite <- E, removelast_last, last_last, !filter_app.
  rewrite (filter_plain segs Hsegs), (filter_plain parts Hparts).
  cbn [filter String.eqb negb app]. now rewrite app_nil_r.
Qed.

Lemma plain_segments_resolve (segs : list string) :
  Forall (fun seg => plain_segment seg = true) segs ->
  Forall (fun seg => String.eqb seg ".." = false /\ String.eqb seg "." = false) segs.
Proof.
  apply Forall_impl. intros seg H.
  destruct (plain_segment_facts seg H) as (_ & H1 & H2 & _). now split.
Qed.

(** Resolving the reference of plain parts against an https base URI whose
    path is a directory of plain segments puts the parts, as a directory,
    under that directory. *)
Theorem urljoin_under_directory (host : string) (segs parts : list string) :
  well_formed_host host = true ->
  Forall (fun seg => plain_segment seg = true) segs ->
  Forall (fun seg => plain_segment seg = true) parts ->
  parts <> [] ->
  Urllib.urljoin ("https://" ++ host ++ "/" ++ directory segs) (relative_reference parts)
  = Ok ("https://" ++ host ++ "/" ++ directory segs ++ directory parts)%string.
Proof.
  intros Hhost Hsegs Hparts Hne.
  rewrite (plain_reference parts Hne Hparts).
  destruct (directory_not_absolute parts "/" Hne Hparts) as (Habs & Hnet & Hnonempty).
  assert (Href : all_bytes reference_byte (directory parts ++ "/") = true).
  { rewrite <- (plain_reference parts Hne Hparts). apply reference_bytes. }
  unfold Urllib.urljoin.
  change (String.eqb ("https://" ++ host ++ "/" ++ directory segs) "") with false.
  cbv beta iota.
  destruct (String.eqb_spec (directory parts ++ "/") "") as [E|_]; [contradiction|].
  rewrite (urlparse_https_directory host segs Hhost Hsegs). cbn [result_bind Urllib.scheme].
  rewrite (urlparse_reference _ "https" Href). cbn [result_bind].
  unfold reference_netloc_path. rewrite Hnet.
  cbn [Urllib.scheme Urllib.netloc Urllib.path Urllib.params Urllib.query Urllib.fragment
         fst snd].
  change (negb (String.eqb "https" "https") || negb (Urllib.among "https" Urllib.uses_relative))
    with false.
  change (Urllib.among "https" Urllib.uses_netloc && negb (String.eqb "" "")) with false.
  change (Urllib.among "https" Urllib.uses_netloc) with true.
  cbv beta iota.
  destruct (String.eqb_spec (directory parts ++ "/") "") as [E|_]; [contradiction|].
  cbn [andb]. rewrite Habs.
  change ("/" ++ directory segs)%string with (String "/" (directory segs)).
  rewrite (split_base_path segs Hsegs), (split_reference parts Hparts).
  replace (last ("" :: segs ++ [""]) "") with ""
    by (change ("" :: segs ++ [""]) with (("" :: segs) ++ [""]); now rewrite last_last).
  cbn [String.eqb].
  rewrite (filter_middle_directories segs parts Hsegs Hparts).
  rewrite last_last. cbn [String.eqb orb].
  rewrite resolve_plain.
  2:{ apply Forall_app. split; [|now repeat constructor].
      constructor; [now split|]. apply Forall_app.
      split; now apply plain_segments_resolve. }
  change (("" :: segs ++ parts) ++ [""]) with ("" :: (segs ++ parts) ++ [""]).
  rewrite join_cons by (destruct (segs ++ parts); discriminate).
  rewrite join_directory, directory_app.
  cbn [append String.eqb].
  unfold Urllib.urlunparse, Urllib.urlunsplit. cbn [String.eqb starts_with].
  unfold well_formed_host in Hhost. apply andb_true_iff in Hhost. destruct Hhost as [Hh _].
  rewrite Hh. cbn [orb negb andb Ascii.eqb Bool.eqb append]. reflexivity.
Qed.

(** *** The scheme [urlparse] finds *)

Lemma urlparse_scheme (uri : string) (b : Urllib.ParseResult) :
  Urllib.urlparse uri "" = Ok b -> Urllib.scheme b = uri_scheme uri.
Proof.
  unfold Urllib.urlparse, Urllib.urlsplit, uri_scheme.
  destruct (Urllib.split_scheme uri "") as [found rest]. cbn [fst].
  destruct (if starts_with "//" rest then Urllib.split_netloc (Urllib.drop2 rest)
            else ("", rest)) as [n p].
  destruct (contains_byte "[" n && negb (contains_byte "]" n)
            || contains_byte "]" n && negb (contains_byte "[" n)); [discriminate|].
  destruct (match Urllib.cut "#" p with Some (u, f) => (u, f) | None => (p, "") end)
    as [p1 f].
  destruct (match Urllib.cut "?" p1 with Some (u, q) => (u, q) | None => (p1, "") end)
    as [p2 q].
  cbn [result_bind Urllib.s_scheme Urllib.s_path].
  destruct (if Urllib.among found Urllib.uses_params && contains_byte ";" p2
            then Urllib.splitparams p2 else (p2, "")) as [p3 ps].
  now intros [= <-].
Qed.

Lemma filter_middle_extra_empty (l : list string) :
  l <> [] -> Urllib.filter_middle (l ++ [""; ""]) = Urllib.filter_middle (l ++ [""]).
Proof.
  destruct l as [|x l]; [contradiction|]. intros _.
  unfold Urllib.filter_middle. cbn [app].
  change (l ++ [""; ""]) with (l ++ [""] ++ [""]). rewrite app_assoc.
  destruct ((l ++ [""]) ++ [""]) as [|y rest] eqn:E.
  { now destruct l. }
  rewrite <- E, removelast_last, last_last. clear E y rest.
  destruct (l ++ [""]) as [|y rest] eqn:E.
  { now destruct l. }
  rewrite <- E, removelast_last, last_last, filter_app.
  cbn [filter String.eqb negb]. now rewrite app_nil_r.
Qed.

Lemma plain_described_reference (parts : list string) :
  parts <> [] ->
  Forall (fun seg => plain_segment seg = true) parts ->
  described_reference parts = directory parts.
Proof.
  intros Hne Hplain. unfold described_reference.
  rewrite (map_quote_kept parts (plain_segments_kept parts Hplain)).
  rewrite <- (join_directory parts), join_snoc by exact Hne.
  reflexivity.
Qed.

(** Against an https base URI, the reference of plain parts resolves as
    the parts joined with ['/'] and one ['/'] after them do. *)
Theorem urljoin_plain_reference (base : string) (parts : list string) :
  uri_scheme base = "https" ->
  parts <> [] ->
  Forall (fun seg => plain_segment seg = true) parts ->
  Urllib.urljoin base (relative_reference parts)
  = Urllib.urljoin base (described_reference parts).
Proof.
  intros Hscheme Hne Hplain.
  pose proof (reference_bytes parts) as Hbytes.
  rewrite (plain_reference parts Hne Hplain) in *.
  rewrite (plain_described_reference parts Hne Hplain).
  destruct (directory_not_absolute parts "/" Hne Hplain) as (Habs & Hnet & Hnonempty).
  destruct (directory_not_absolute parts "" Hne Hplain) as (Habs' & Hnet' & Hnonempty').
  rewrite string_app_nil_r in Habs', Hnet', Hnonempty'.
  assert (Hbytes' : all_bytes reference_byte (directory parts) = true).
  { rewrite all_bytes_app in Hbytes. now apply andb_true_iff in Hbytes. }
  unfold Urllib.urljoin.
  destruct (String.eqb_spec base "") as [->|_]; [discriminate Hscheme|].
  destruct (String.eqb_spec (directory parts ++ "/") "") as [E|_]; [contradiction|].
  destruct (String.eqb_spec (directory parts) "") as [E|_]; [contradiction|].
  destruct (Urllib.urlparse base "") as [b|e] eqn:Hb; [|reflexivity].
  cbn [result_bind].
  rewrite (urlparse_scheme base b Hb), Hscheme.
  rewrite (urlparse_reference _ "https" Hbytes), (urlparse_reference _ "https" Hbytes').
  cbn [result_bind]. unfold reference_netloc_path. rewrite Hnet, Hnet'.
  cbn [Urllib.scheme Urllib.netloc Urllib.path Urllib.params Urllib.query Urllib.fragment
         fst snd].
  change (negb (String.eqb "https" "https") || negb (Urllib.among "https" Urllib.uses_relative))
    with false.
  change (Urllib.among "https" Urllib.uses_netloc && negb (String.eqb "" "")) with false.
  cbv beta iota.
  destruct (String.eqb_spec (directory parts ++ "/") "") as [E|_]; [contradiction|].
  destruct (String.eqb_spec (directory parts) "") as [E|_]; [contradiction|].
  cbn [andb]. rewrite Habs, Habs'.
  rewrite (split_reference parts Hplain).
  assert (Hsplit : Urllib.split "/" (directory parts) = parts ++ [""]).
  { rewrite <- (string_app_nil_r (directory parts)).
    now rewrite (split_directory parts "" (plain_segments_no_slash parts Hplain)). }
  rewrite Hsplit.
  set (base_parts := if String.eqb (last (Urllib.split "/" (Urllib.path b)) "") ""
                     then Urllib.split "/" (Urllib.path b)
                     else removelast (Urllib.split "/" (Urllib.path b))).
  rewrite !app_assoc.
  rewrite (filter_middle_extra_empty (base_parts ++ parts))
    by (destruct base_parts; destruct parts; discriminate || contradiction).
  reflexivity.
Qed.

(** ** The transport check at construction *)

Example uri_scheme_examples :
  uri_scheme "https://wallet.example/" = "https" /\
  uri_scheme "HTTPS://wallet.example/" = "https" /\
  uri_scheme "http://wallet.example/" = "http" /\
  uri_scheme "wallet.example/https:" = "" /\
  uri_netloc "https://wallet.example/api" = "wallet.example".
Proof. repeat split. Qed.


(** ** The endpoint URIs *)

(** A request for parts other than the single empty part adds no call
    whose URI lacks the ['/'] at the end. *)
Lemma request_uri_ends_with_slash
    (env : Collaborators) (method : string) (parts : list string) (kwargs : dict)
    (w : @world (with_urllib env)) :
  parts <> [""] ->
  Forall (fun sent_call => ends_with_slash (c_uri sent_call) = true) (sent w) ->
  Forall (fun sent_call => ends_with_slash (c_uri sent_call) = true)
    (sent (snd (@_request (with_urllib env) method parts kwargs w))).
Proof.
  intros Hparts Hw.
  destruct (@_request_effect (with_urllib env) method parts kwargs w)
    as [_ [-> | (c & -> & _ & Huri & _)]]; [exact Hw|].
  apply Forall_app. split; [exact Hw|]. constructor; [|constructor].
  exact (urljoin_reference_ends_with_slash _ _ _ Hparts Huri).
Qed.

(** C8 as worded fails: the call that [send("5", "0xabc")] hands to the
    session has the URI [https://wallet.example/v1/send/], with a ['/'] at
    its end; it is not the URI of [v1/send] under the base URI. *)
Lemma send_path_has_trailing_slash :
  Fixture.sent_by_send = [Fixture.post_call] /\
  c_method Fixture.post_call = "post" /\
  BASE_API_URI Fixture.client = "https://wallet.example/" /\
  c_uri Fixture.post_call = "https://wallet.example/v1/send/" /\
  c_uri Fixture.post_call <> "https://wallet.example/v1/send" /\
  Urllib.urljoin "https://wallet.example/" "v1/send" = Ok "https://wallet.example/v1/send".
Proof. repeat split. discriminate. Qed.

(** C8, as the code has it: [send(amount, address)] hands one [post] call
    to the session.  Its URI is what [v1/send/], with the ['/'] at the end,
    resolves to against the validated base URI: for a base URI
    [https://host/] or [https://host/dir/.../], the base URI followed by
    [v1/send/].  Its [data] is the encoding of the dict [{amount, address}]
    with the values given, and nothing else goes with it but [verify]. *)
Theorem send_posts_amount_and_address
    (env : Collaborators) (amount address : value) (w : @world (with_urllib env))
    (uri : string) (encoded : value) :
  uri_scheme (BASE_API_URI (self w)) = "https" ->
  Urllib.urljoin (BASE_API_URI (self w)) "v1/send/" = Ok uri ->
  @encode_params (with_urllib env) [("amount", amount); ("address", address)] = Ok encoded ->
  let c := {| c_method := "post"; c_uri := uri;
              c_kwargs := [("data", encoded); ("verify", VERIFY_SSL (self w))] |} in
  @send (with_urllib env) amount address w =
    (result_bind (transport c) response_json,
     {| self := self w; sent := sent w ++ [c] |}) /\
  (forall (host : string) (segs : list string),
      well_formed_host host = true ->
      Forall (fun seg => plain_segment seg = true) segs ->
      BASE_API_URI (self w) = ("https://" ++ host ++ "/" ++ directory segs)%string ->
      uri = (BASE_API_URI (self w) ++ "v1/send/")%string).
Proof.
  intros Hscheme Huri Henc c.
  assert (Hplain : Forall (fun seg => plain_segment seg = true) ["v1"; "send"])
    by (repeat constructor).
  assert (Hresolved :
            Urllib.urljoin (BASE_API_URI (self w)) (relative_reference ["v1"; "send"])
            = Ok uri).
  { rewrite (urljoin_plain_reference _ ["v1"; "send"] Hscheme) by (discriminate || exact Hplain).
    exact Huri. }
  split.
  - exact (@send_steps (with_urllib env) amount address w uri encoded Hresolved Henc).
  - intros host segs Hhost Hsegs Hbase.
    rewrite Hbase in Hresolved |- *.
    rewrite (urljoin_under_directory host segs ["v1"; "send"] Hhost Hsegs Hplain) in Hresolved
      by discriminate.
    injection Hresolved as <-.
    change (directory ["v1"; "send"]) with "v1/send/".
    now rewrite !string_app_assoc.
Qed.

(** C9 as worded fails: for the single empty part the client of
    [https://wallet.example/api] requests the URI
    [https://wallet.example/api], which does not end with ['/']; the empty
    part quoted and followed by one ['/'] is the reference [/], which
    resolves to another URI. *)
Lemma empty_part_uri_has_no_trailing_slash :
  map c_uri (sent (snd (@_request Fixture.env "get" [""] [] (fresh Mounted.client))))
  = ["https://wallet.example/api"] /\
  ends_with_slash "https://wallet.example/api" = false /\
  relative_reference [""] = "//" /\
  described_reference [""] = "/" /\
  Urllib.urljoin "https://wallet.example/api" (described_reference [""])
  = Ok "https://wallet.example/".
Proof. repeat split. Qed.

(** C9, as the code has it: [_create_api_uri] adds ['/'] to the parts as
    one more part, quotes each part and joins them with ['/'], so the
    reference it resolves against [BASE_API_URI] is the quoted parts joined
    with ['/'] followed by two ['/'] (one ['/'] alone when there are no
    parts).  Every URI the client requests ends with ['/'], whatever the
    base URI, as long as no request is for the single empty part. *)
Theorem create_api_uri_reference (env : Collaborators) (parts : list string) :
  relative_reference parts
  = (join "/" (map quote parts) ++ match parts with [] => "/" | _ :: _ => "//" end)%string /\
  (forall w : @world env,
      @_create_api_uri env parts w
      = (@urljoin env (BASE_API_URI (self w)) (relative_reference parts), w)) /\
  (parts <> [""] ->
   forall (w : @world (with_urllib env)) (method : string) (kwargs : dict) (c : call),
     sent (snd (@_request (with_urllib env) method parts kwargs w)) = sent w ++ [c] ->
     ends_with_slash (c_uri c) = true) /\
  (forall (client : @Client (with_urllib env)) (ops : list operation),
      Forall names_an_endpoint ops ->
      Forall (fun sent_call => ends_with_slash (c_uri sent_call) = true)
        (sent (run_operations ops (fresh client)))).
Proof.
  split; [apply reference_form|]. split; [reflexivity|]. split.
  - intros Hparts w method kwargs c Hsent.
    destruct (@_request_effect (with_urllib env) method parts kwargs w)
      as [_ [Hnone | (c' & Hone & _ & Huri & _)]].
    + rewrite Hnone in Hsent. now apply app_one_not_self in Hsent.
    + rewrite Hone in Hsent. apply app_inv_head in Hsent. injection Hsent as ->.
      exact (urljoin_reference_ends_with_slash _ _ _ Hparts Huri).
  - intros client ops.
    assert (Hw : Forall (fun sent_call => ends_with_slash (c_uri sent_call) = true)
                   (sent (fresh client))) by constructor.
    revert Hw. generalize (fresh client).
    induction ops as [|op ops IH]; intros w Hw Hops; [exact Hw|].
    inversion Hops as [|? ? Hop Hrest]; subst.
    cbn [run_operations]. apply IH; [|exact Hrest].
    destruct op as [|amount address|method parts' kwargs]; cbn [run_operation];
      apply request_uri_ends_with_slash; (discriminate || exact Hw || exact Hop).
Qed.

(** ** More on the operations *)

Section Operations.

Context {env : Collaborators}.

(** X13: when the parameters of [send] do not encode, [send] raises the
    encoder's exception and hands nothing to the session. *)
Theorem send_fails_without_sending
    (amount address : value) (w : world) (uri : string) (e : exn) :
  urljoin (BASE_API_URI (self w)) "v1/send//" = Ok uri ->
  encode_params [("amount", amount); ("address", address)] = Raise e ->
  send amount address w = (Raise e, w).
Proof.
  intros Huri Henc. unfold send, _post. rewrite _request_steps.
  change (relative_reference ["v1"; "send"]) with "v1/send//". rewrite Huri.
  unfold settle_body. cbn [dict_lookup String.eqb Ascii.eqb Bool.eqb].
  now rewrite Henc.
Qed.

(** X14: the method name plays no part in what [_request] sends: from the
    same state, parts and keyword arguments, [_get], [_post], [_put] and
    [_delete] each send a call when one of them does, to the same URI and
    with the same keyword arguments -- a [data] dict is encoded for [get]
    as it is for [post] -- and the method of the call is the helper's. *)
Theorem verb_helpers_differ_in_method_only
    (method : string) (parts : list string) (kwargs : dict) (w : world) (c : call) :
  sent (snd (_request method parts kwargs w)) = sent w ++ [c] ->
  let with_method (name : string) : call :=
    {| c_method := name; c_uri := c_uri c; c_kwargs := c_kwargs c |} in
  c = with_method method /\
  sent (snd (_get parts kwargs w)) = sent w ++ [with_method "get"] /\
  sent (snd (_post parts kwargs w)) = sent w ++ [with_method "post"] /\
  sent (snd (_put parts kwargs w)) = sent w ++ [with_method "put"] /\
  sent (snd (_delete parts kwargs w)) = sent w ++ [with_method "delete"].
Proof.
  intros Hsent with_method.
  destruct (_request_sent_call _ _ _ _ _ Hsent) as (uri & kwargs' & Huri & Hbody & _ & ->).
  unfold _get, _post, _put, _delete. rewrite !_request_steps, Huri, Hbody.
  repeat split.
Qed.

End Operations.

(** ** The further properties at work on the fixed environment *)

Lemma request_passes_other_arguments_witness :
  dict_lookup
    [("timeout", VInt 30); ("data", VStr "amount=5"); ("verify", VBool true)] "timeout"
  = dict_lookup [("timeout", VInt 30); ("data", VDict [("amount", VStr "5")])] "timeout".
Proof.
  apply (@request_passes_other_arguments Fixture.env "post" ["v1"; "send"]
           [("timeout", VInt 30); ("data", VDict [("amount", VStr "5")])]
           (fresh Fixture.client)
           {| c_method := "post"; c_uri := c_uri Fixture.post_call;
              c_kwargs := [("timeout", VInt 30); ("data", VStr "amount=5");
                           ("verify", VBool true)] |}
           "timeout");
    [reflexivity | discriminate | discriminate].
Defined.

Lemma request_overrides_caller_verify_witness :
  dict_lookup [("verify", VBool false)] "verify" = Some (VERIFY_SSL OptedOut.client).
Proof.
  apply (@request_overrides_caller_verify Fixture.env "post" ["v1"; "addresses"]
           [("verify", VStr (@ETHCLIENT_CRT_PATH Fixture.env))]
           (fresh OptedOut.client)
           {| c_method := "post"; c_uri := c_uri Outage.address_call;
              c_kwargs := [("verify", VBool false)] |}).
  reflexivity.
Defined.

Lemma request_fails_before_sending_witness :
  @_request Fixture.env "post" ["v1"; "send"]
    [("data", VDict [("amount", VInt 5)])] (fresh Fixture.client)
  = (Raise UnsupportedParameter, fresh Fixture.client).
Proof.
  apply (@request_fails_before_sending Fixture.env).
  right. exists (c_uri Fixture.post_call), [("amount", VInt 5)].
  repeat split. discriminate.
Defined.

Lemma request_returns_response_json_witness :
  fst (@_request Outage.env "post" ["v1"; "addresses"] [] (fresh Outage.client))
  = Raise (OtherError "ConnectionError") /\
  sent (snd (@_request Outage.env "post" ["v1"; "addresses"] [] (fresh Outage.client)))
  = [Outage.address_call].
Proof.
  split; [|reflexivity].
  destruct (@request_returns_response_json Outage.env "post" ["v1"; "addresses"] []
              (fresh Outage.client) Outage.address_call eq_refl) as (_ & _ & Hraise & _).
  apply Hraise. reflexivity.
Defined.

Lemma create_address_posts_without_data_witness :
  @create_address Fixture.env (fresh Fixture.client)
  = (Ok (VDict []),
     {| self := Fixture.client;
        sent := [{| c_method := "post"; c_uri := c_uri Outage.address_call;
                    c_kwargs := [("verify", VBool true)] |}] |}).
Proof.
  apply (@create_address_posts_without_data Fixture.env (fresh Fixture.client)
           (c_uri Outage.address_call)).
  reflexivity.
Defined.

Lemma request_keeps_argument_names_witness :
  map fst [("timeout", VInt 30); ("data", VStr "amount=5"); ("verify", VBool true)]
  = ["timeout"; "data"] ++ ["verify"].
Proof.
  apply (@request_keeps_argument_names Fixture.env "post" ["v1"; "send"]
           [("timeout", VInt 30); ("data", VDict [("amount", VStr "5")])]
           (fresh Fixture.client)
           {| c_method := "post"; c_uri := c_uri Fixture.post_call;
              c_kwargs := [("timeout", VInt 30); ("data", VStr "amount=5");
                           ("verify", VBool true)] |}).
  reflexivity.
Defined.

Lemma construction_sets_version_and_signer_witness :
  API_VERSION Fixture.client = VStr "2016-05-17" /\
  auth (session Fixture.client) = (VStr "k1", VStr "s1", VStr "2016-05-17").
Proof.
  apply (@construction_sets_version_and_signer Fixture.env (VStr "k1") (VStr "s1")
           "https://wallet.example/" VNone Fixture.client).
  reflexivity.
Defined.

Lemma safe_parts_reference_witness :
  relative_reference ["v1"; "addresses"] = "v1/addresses//".
Proof.
  apply (safe_parts_reference ["v1"; "addresses"]); [discriminate|].
  repeat constructor.
Defined.

Lemma reference_has_only_reference_bytes_witness :
  contains_byte "?" (relative_reference ["find?key=1"; "a b"]) = false.
Proof.
  apply (proj2 (reference_has_only_reference_bytes ["find?key=1"; "a b"])).
  reflexivity.
Defined.

Lemma send_fails_without_sending_witness :
  @send Fixture.env (VInt 5) (VStr "0xabc") (fresh Fixture.client)
  = (Raise UnsupportedParameter, fresh Fixture.client).
Proof.
  apply (@send_fails_without_sending Fixture.env (VInt 5) (VStr "0xabc")
           (fresh Fixture.client) (c_uri Fixture.post_call));
    reflexivity.
Defined.

Lemma verb_helpers_differ_in_method_only_witness :
  sent (snd (@_get Fixture.env ["v1"; "addresses"] [] (fresh Fixture.client)))
  = sent (fresh Fixture.client)
    ++ [{| c_method := "get"; c_uri := c_uri Outage.address_call;
           c_kwargs := c_kwargs Outage.address_call |}].
Proof.
  apply (@verb_helpers_differ_in_method_only Fixture.env "post" ["v1"; "addresses"] []
           (fresh Fixture.client) Outage.address_call).
  reflexivity.
Defined.

Lemma construction_sets_session_headers_witness :
  header_lookup (headers (session Fixture.client)) "accept"
  = Some (VStr "application/json") /\
  header_lookup (headers (session Fixture.client)) "USER-AGENT"
  = Some (VStr "ethwallet/python/3.0") /\
  header_lookup (headers (session Fixture.client)) "connection"
  = Some (VStr "keep-alive").
Proof.
  pose proof (@construction_sets_session_headers Fixture.env (VStr "k1") (VStr "s1")
                "https://wallet.example/" VNone Fixture.client eq_refl) as H.
  split; [|split].
  - exact (proj1 (H "accept") eq_refl).
  - exact (proj1 (proj2 (proj2 (H "USER-AGENT"))) eq_refl).
  - apply (proj2 (proj2 (proj2 (H "connection")))); discriminate.
Defined.


Lemma send_posts_amount_and_address_witness :
  @send Fixture.env (VStr "5") (VStr "0xabc") (fresh Fixture.client)
  = (Ok (VDict []),
     {| self := Fixture.client;
        sent := [{| c_method := "post";
                    c_uri := "https://wallet.example/v1/send/";
                    c_kwargs := [("data", VStr "address=0xabc&amount=5");
                                 ("verify", VBool true)] |}] |}) /\
  "https://wallet.example/v1/send/" = ("https://wallet.example/" ++ "v1/send/")%string.
Proof.
  destruct (send_posts_amount_and_address Fixture.env (VStr "5") (VStr "0xabc")
              (fresh Fixture.client) "https://wallet.example/v1/send/"
              (VStr "address=0xabc&amount=5") eq_refl eq_refl eq_refl) as [Hsend Huri].
  split; [exact Hsend|].
  apply (Huri "wallet.example" []); [reflexivity | constructor | reflexivity].
Defined.

Lemma create_api_uri_reference_witness :
  relative_reference ["v1"; "send"] = "v1/send//" /\
  ends_with_slash (c_uri Fixture.post_call) = true /\
  Forall (fun sent_call => ends_with_slash (c_uri sent_call) = true)
    (sent (run_operations
             [Op_create_address; Op_send (VStr "5") (VStr "0xabc");
              Op_request "get" ["v1"; ""] []]
             (fresh Mounted.client))).
Proof.
  destruct (create_api_uri_reference Fixture.env ["v1"; "send"])
    as (Href & _ & Hrequest & Hops).
  split; [exact Href|]. split.
  - apply (fun H => Hrequest H (fresh Fixture.client) "post"
                      [("data", VDict [("amount", VStr "5"); ("address", VStr "0xabc")])]
                      Fixture.post_call);
      [discriminate | reflexivity].
  - apply (Hops Mounted.client). repeat constructor. discriminate.
Defined.
